(** * guibot/config.py: global registry, temporary overrides, local backend container

    A shallow embedding of [src/guibot/config.py]:
    - [Config]: the settings object, one getter/setter accessor per setting,
      each installed as a [property] (same function as [fget] and [fset]);
    - [TemporaryConfig]: the context manager that forwards attribute access
      to the module-level name [GlobalConfig] (which the file never binds)
      and restores what it changed on [__exit__];
    - [LocalConfig]: the per-instance backend container with its
      [configure_backend] / [synchronize_backend] pair.

    Python objects are modelled by their attribute dictionaries ([gmap]),
    methods by state-passing functions that either return or raise. *)

From stdpp Require Import gmap strings list fin_maps.
From Stdlib Require Import ZArith.

Open Scope string_scope.
Open Scope list_scope.

(** ** Python values stored in settings *)

(** [VFloat] carries the IEEE-754 binary64 bit pattern of the float; the
    code only stores and returns floats, it never computes with them. *)
Inductive pyvalue : Type :=
  | VNone
  | VBool (b : bool)
  | VInt (n : Z)
  | VFloat (bits : Z)
  | VStr (s : string).

#[global] Instance pyvalue_eq_dec : EqDecision pyvalue.
Proof. solve_decision. Defined.

(** [value is None] *)
Definition is_None (v : pyvalue) : bool :=
  match v with VNone => true | _ => false end.

(** [value is True or value is False]: identity with one of the two bool
    singletons, so [1] and [0] do not pass. *)
Definition is_True_or_False (v : pyvalue) : bool :=
  match v with VBool _ => true | _ => false end.

(** [value in [s1, ..., sn]] for a list of str literals: [==] between a
    str and a value of another type is false. *)
Definition in_strs (v : pyvalue) (l : list string) : bool :=
  match v with
  | VStr s => bool_decide (s ∈ l)
  | _ => false
  end.

(** ** Exceptions *)

(** The exception classes the module raises.  [UnsupportedBackendError] and
    [UninitializedBackendError] come from [from .errors import *]; the
    others are builtins. *)
Inductive exn_class : Type :=
  | ValueError
  | AttributeError
  | KeyError
  | NameError
  | UnsupportedBackendError
  | UninitializedBackendError.

#[global] Instance exn_class_eq_dec : EqDecision exn_class.
Proof. solve_decision. Defined.

(** Arguments of a [%]-formatted message, kept unformatted. *)
Inductive fmt_arg : Type :=
  | ArgValue (v : pyvalue)
  | ArgStr (s : string)
  | ArgTuple (l : list string).

(** An exception instance: its class, the message template and the
    arguments the template is applied to ([exn_fmt % exn_args]). *)
Record exn : Type := Exn {
  exn_class_of : exn_class;
  exn_fmt : string;
  exn_args : list fmt_arg
}.

Inductive outcome (A : Type) : Type :=
  | Return (a : A)
  | Raise (e : exn).
Arguments Return {A} a.
Arguments Raise {A} e.

(** ** State and exception monad

    A method running on a state [Σ] either returns a result or raises; in
    both cases the mutations done so far stay in the state. *)
Definition M (Σ A : Type) : Type := Σ → outcome A * Σ.

#[global] Instance M_ret {Σ} : MRet (M Σ) := λ A a σ, (Return a, σ).
#[global] Instance M_bind {Σ} : MBind (M Σ) := λ A B f m σ,
  match m σ with
  | (Return a, σ') => f a σ'
  | (Raise e, σ') => (Raise e, σ')
  end.

Definition raise {Σ A} (e : exn) : M Σ A := λ σ, (Raise e, σ).

Definition gets {Σ A} (f : Σ → A) : M Σ A := λ σ, (Return (f σ), σ).

Definition modify {Σ} (f : Σ → Σ) : M Σ unit := λ σ, (Return (), f σ).

(** ** class Config *)
Module Config.

(** [self._f], raising [AttributeError] when the instance has no [_f]. *)
Definition getfield (f : string) : M (gmap string pyvalue) pyvalue := λ σ,
  match σ !! f with
  | Some v => (Return v, σ)
  | None =>
      (Raise (Exn AttributeError "'Config' object has no attribute '%s'" [ArgStr f]), σ)
  end.

(** [self._f = v] *)
Definition setfield (f : string) (v : pyvalue) : M (gmap string pyvalue) unit :=
  modify (λ σ, <[f := v]> σ).

Definition toggle_delay (value : pyvalue) : M (gmap string pyvalue) pyvalue :=
  if is_None value then getfield "_toggle_delay"
  else setfield "_toggle_delay" value ;; mret VNone.

Definition click_delay (value : pyvalue) : M (gmap string pyvalue) pyvalue :=
  if is_None value then getfield "_click_delay"
  else setfield "_click_delay" value ;; mret VNone.

Definition delay_after_drag (value : pyvalue) : M (gmap string pyvalue) pyvalue :=
  if is_None value then getfield "_drag_delay"
  else setfield "_drag_delay" value ;; mret VNone.

Definition delay_before_drop (value : pyvalue) : M (gmap string pyvalue) pyvalue :=
  if is_None value then getfield "_drop_delay"
  else setfield "_drop_delay" value ;; mret VNone.

Definition delay_before_keys (value : pyvalue) : M (gmap string pyvalue) pyvalue :=
  if is_None value then getfield "_keys_delay"
  else setfield "_keys_delay" value ;; mret VNone.

Definition delay_between_keys (value : pyvalue) : M (gmap string pyvalue) pyvalue :=
  if is_None value then getfield "_type_delay"
  else setfield "_type_delay" value ;; mret VNone.

Definition rescan_speed_on_find (value : pyvalue) : M (gmap string pyvalue) pyvalue :=
  if is_None value then getfield "_rescan_speed_on_find"
  else setfield "_rescan_speed_on_find" value ;; mret VNone.

Definition wait_for_animations (value : pyvalue) : M (gmap string pyvalue) pyvalue :=
  if is_None value then getfield "_wait_for_animations"
  else if is_True_or_False value then
    setfield "_wait_for_animations" value ;; mret VNone
  else raise (Exn ValueError "" []).

Definition smooth_mouse_drag (value : pyvalue) : M (gmap string pyvalue) pyvalue :=
  if is_None value then getfield "_smooth_mouse_drag"
  else if is_True_or_False value then
    setfield "_smooth_mouse_drag" value ;; mret VNone
  else raise (Exn ValueError "" []).

Definition preprocess_special_chars (value : pyvalue) : M (gmap string pyvalue) pyvalue :=
  if is_None value then getfield "_preprocess_special_chars"
  else if is_True_or_False value then
    setfield "_preprocess_special_chars" value ;; mret VNone
  else raise (Exn ValueError "" []).

Definition save_needle_on_error (value : pyvalue) : M (gmap string pyvalue) pyvalue :=
  if is_None value then getfield "_save_needle_on_error"
  else if is_True_or_False value then
    setfield "_save_needle_on_error" value ;; mret VNone
  else raise (Exn ValueError "" []).

Definition image_logging_level (value : pyvalue) : M (gmap string pyvalue) pyvalue :=
  if is_None value then getfield "_image_logging_level"
  else setfield "_image_logging_level" value ;; mret VNone.

Definition image_logging_step_width (value : pyvalue) : M (gmap string pyvalue) pyvalue :=
  if is_None value then getfield "_image_logging_step_width"
  else setfield "_image_logging_step_width" value ;; mret VNone.

Definition image_quality (value : pyvalue) : M (gmap string pyvalue) pyvalue :=
  if is_None value then getfield "_image_quality"
  else setfield "_image_quality" value ;; mret VNone.

Definition image_logging_destination (value : pyvalue) : M (gmap string pyvalue) pyvalue :=
  if is_None value then getfield "_image_logging_destination"
  else setfield "_image_logging_destination" value ;; mret VNone.

Definition display_control_backend (value : pyvalue) : M (gmap string pyvalue) pyvalue :=
  if is_None value then getfield "_display_control_backend"
  else
    (if negb (in_strs value ["autopy"; "xdotool"; "vncdotool"; "qemu"; "pyautogui"])
     then raise (Exn ValueError "Unsupported backend for GUI actions '%s'" [ArgValue value])
     else mret ()) ;;
    setfield "_display_control_backend" value ;; mret VNone.

Definition find_backend (value : pyvalue) : M (gmap string pyvalue) pyvalue :=
  if is_None value then getfield "_find_backend"
  else setfield "_find_backend" value ;; mret VNone.

Definition contour_threshold_backend (value : pyvalue) : M (gmap string pyvalue) pyvalue :=
  if is_None value then getfield "_contour_threshold_backend"
  else setfield "_contour_threshold_backend" value ;; mret VNone.

Definition template_match_backend (value : pyvalue) : M (gmap string pyvalue) pyvalue :=
  if is_None value then getfield "_template_match_backend"
  else setfield "_template_match_backend" value ;; mret VNone.

Definition feature_detect_backend (value : pyvalue) : M (gmap string pyvalue) pyvalue :=
  if is_None value then getfield "_feature_detect_backend"
  else setfield "_feature_detect_backend" value ;; mret VNone.

Definition feature_extract_backend (value : pyvalue) : M (gmap string pyvalue) pyvalue :=
  if is_None value then getfield "_feature_extract_backend"
  else setfield "_feature_extract_backend" value ;; mret VNone.

Definition feature_match_backend (value : pyvalue) : M (gmap string pyvalue) pyvalue :=
  if is_None value then getfield "_feature_match_backend"
  else setfield "_feature_match_backend" value ;; mret VNone.

Definition text_detect_backend (value : pyvalue) : M (gmap string pyvalue) pyvalue :=
  if is_None value then getfield "_text_detect_backend"
  else setfield "_text_detect_backend" value ;; mret VNone.

Definition text_ocr_backend (value : pyvalue) : M (gmap string pyvalue) pyvalue :=
  if is_None value then getfield "_text_ocr_backend"
  else setfield "_text_ocr_backend" value ;; mret VNone.

Definition deep_learn_backend (value : pyvalue) : M (gmap string pyvalue) pyvalue :=
  if is_None value then getfield "_deep_learn_backend"
  else setfield "_deep_learn_backend" value ;; mret VNone.

Definition hybrid_match_backend (value : pyvalue) : M (gmap string pyvalue) pyvalue :=
  if is_None value then getfield "_hybrid_match_backend"
  else setfield "_hybrid_match_backend" value ;; mret VNone.

(** The [property] objects of the class: [name = property(fget=name,
    fset=name)], the same accessor serving as getter and as setter. *)
Inductive property : Type :=
  | P_toggle_delay | P_click_delay | P_delay_after_drag | P_delay_before_drop
  | P_delay_before_keys | P_delay_between_keys | P_rescan_speed_on_find
  | P_wait_for_animations | P_smooth_mouse_drag | P_preprocess_special_chars
  | P_save_needle_on_error
  | P_image_logging_level | P_image_logging_step_width | P_image_quality
  | P_image_logging_destination
  | P_display_control_backend
  | P_find_backend | P_contour_threshold_backend | P_template_match_backend
  | P_feature_detect_backend | P_feature_extract_backend
  | P_feature_match_backend | P_text_detect_backend | P_text_ocr_backend
  | P_deep_learn_backend | P_hybrid_match_backend.

#[global] Instance property_eq_dec : EqDecision property.
Proof. solve_decision. Defined.

Definition properties : list property :=
  [ P_toggle_delay; P_click_delay; P_delay_after_drag; P_delay_before_drop;
    P_delay_before_keys; P_delay_between_keys; P_rescan_speed_on_find;
    P_wait_for_animations; P_smooth_mouse_drag; P_preprocess_special_chars;
    P_save_needle_on_error;
    P_image_logging_level; P_image_logging_step_width; P_image_quality;
    P_image_logging_destination;
    P_display_control_backend;
    P_find_backend; P_contour_threshold_backend; P_template_match_backend;
    P_feature_detect_backend; P_feature_extract_backend;
    P_feature_match_backend; P_text_detect_backend; P_text_ocr_backend;
    P_deep_learn_backend; P_hybrid_match_backend ].

(** The class attribute a property is bound to. *)
Definition name (p : property) : string :=
  match p with
  | P_toggle_delay => "toggle_delay"
  | P_click_delay => "click_delay"
  | P_delay_after_drag => "delay_after_drag"
  | P_delay_before_drop => "delay_before_drop"
  | P_delay_before_keys => "delay_before_keys"
  | P_delay_between_keys => "delay_between_keys"
  | P_rescan_speed_on_find => "rescan_speed_on_find"
  | P_wait_for_animations => "wait_for_animations"
  | P_smooth_mouse_drag => "smooth_mouse_drag"
  | P_preprocess_special_chars => "preprocess_special_chars"
  | P_save_needle_on_error => "save_needle_on_error"
  | P_image_logging_level => "image_logging_level"
  | P_image_logging_step_width => "image_logging_step_width"
  | P_image_quality => "image_quality"
  | P_image_logging_destination => "image_logging_destination"
  | P_display_control_backend => "display_control_backend"
  | P_find_backend => "find_backend"
  | P_contour_threshold_backend => "contour_threshold_backend"
  | P_template_match_backend => "template_match_backend"
  | P_feature_detect_backend => "feature_detect_backend"
  | P_feature_extract_backend => "feature_extract_backend"
  | P_feature_match_backend => "feature_match_backend"
  | P_text_detect_backend => "text_detect_backend"
  | P_text_ocr_backend => "text_ocr_backend"
  | P_deep_learn_backend => "deep_learn_backend"
  | P_hybrid_match_backend => "hybrid_match_backend"
  end.

(** The function given as [fget] and [fset] of the property. *)
Definition accessor (p : property) : pyvalue → M (gmap string pyvalue) pyvalue :=
  match p with
  | P_toggle_delay => toggle_delay
  | P_click_delay => click_delay
  | P_delay_after_drag => delay_after_drag
  | P_delay_before_drop => delay_before_drop
  | P_delay_before_keys => delay_before_keys
  | P_delay_between_keys => delay_between_keys
  | P_rescan_speed_on_find => rescan_speed_on_find
  | P_wait_for_animations => wait_for_animations
  | P_smooth_mouse_drag => smooth_mouse_drag
  | P_preprocess_special_chars => preprocess_special_chars
  | P_save_needle_on_error => save_needle_on_error
  | P_image_logging_level => image_logging_level
  | P_image_logging_step_width => image_logging_step_width
  | P_image_quality => image_quality
  | P_image_logging_destination => image_logging_destination
  | P_display_control_backend => display_control_backend
  | P_find_backend => find_backend
  | P_contour_threshold_backend => contour_threshold_backend
  | P_template_match_backend => template_match_backend
  | P_feature_detect_backend => feature_detect_backend
  | P_feature_extract_backend => feature_extract_backend
  | P_feature_match_backend => feature_match_backend
  | P_text_detect_backend => text_detect_backend
  | P_text_ocr_backend => text_ocr_backend
  | P_deep_learn_backend => deep_learn_backend
  | P_hybrid_match_backend => hybrid_match_backend
  end.

(** Class lookup of an attribute name: the property bound to it, if any. *)
Definition lookup_property (attr : string) : option property :=
  List.find (λ p, bool_decide (name p = attr)) properties.

(** [getattr(obj, attr)] on an instance with attributes [σ]: a property of
    the class takes precedence and calls [fget(obj)], that is the accessor
    with its default [value=None]; any other name is looked up in the
    instance dictionary.  The class has no other attribute than its
    properties and the double-underscore names ([__init__], [__module__],
    [__doc__], [__dict__], ...); these are not modelled: for a name that
    starts with two underscores Python may find the attribute on the class
    where this function raises. *)
Definition getattr (attr : string) : M (gmap string pyvalue) pyvalue :=
  match lookup_property attr with
  | Some p => accessor p VNone
  | None => getfield attr
  end.

(** [setattr(obj, attr, value)]: a property calls [fset(obj, value)] and
    drops what it returns; any other name is stored in the instance
    dictionary.  Names that start with two underscores are not modelled:
    Python refuses some of them ([__class__], [__dict__], [__weakref__])
    where this function stores. *)
Definition setattr (attr : string) (value : pyvalue) : M (gmap string pyvalue) unit :=
  match lookup_property attr with
  | Some p => accessor p value ;; mret ()
  | None => setfield attr value
  end.

(** [Config.__init__]: every line is an attribute assignment on [self],
    which goes through the property when the class has one of that name. *)
Definition __init__ : M (gmap string pyvalue) unit :=
  setattr "toggle_delay" (VFloat 0x3FA999999999999A) ;;          (* 0.05 *)
  setattr "click_delay" (VFloat 0x3FB999999999999A) ;;           (* 0.1 *)
  setattr "drag_delay" (VFloat 0x3FE0000000000000) ;;            (* 0.5 *)
  setattr "drop_delay" (VFloat 0x3FE0000000000000) ;;            (* 0.5 *)
  setattr "keys_delay" (VFloat 0x3FC999999999999A) ;;            (* 0.2 *)
  setattr "type_delay" (VFloat 0x3FB999999999999A) ;;            (* 0.1 *)
  setattr "rescan_speed_on_find" (VFloat 0x3FC999999999999A) ;;  (* 0.2 *)
  setattr "wait_for_animations" (VBool false) ;;
  setattr "smooth_mouse_drag" (VBool true) ;;
  setattr "screen_autoconnect" (VBool true) ;;
  setattr "preprocess_special_chars" (VBool true) ;;
  setattr "save_needle_on_error" (VBool true) ;;
  setattr "image_logging_level" (VInt 40) ;;                     (* logging.ERROR *)
  setattr "image_logging_destination" (VStr "imglog") ;;
  setattr "image_logging_step_width" (VInt 3) ;;
  setattr "image_quality" (VInt 3) ;;
  setattr "display_control_backend" (VStr "pyautogui") ;;
  setattr "find_backend" (VStr "hybrid") ;;
  setattr "contour_threshold_backend" (VStr "adaptive") ;;
  setattr "template_match_backend" (VStr "ccoeff_normed") ;;
  setattr "feature_detect_backend" (VStr "ORB") ;;
  setattr "feature_extract_backend" (VStr "ORB") ;;
  setattr "feature_match_backend" (VStr "BruteForce-Hamming") ;;
  setattr "text_detect_backend" (VStr "contours") ;;
  setattr "text_ocr_backend" (VStr "pytesseract") ;;
  setattr "deep_learn_backend" (VStr "pytorch") ;;
  setattr "hybrid_match_backend" (VStr "template").

(** [Config()]: the attributes of a newly built instance. *)
Definition new : gmap string pyvalue := (__init__ ∅).2.

End Config.

(** ** Python dict with insertion order, as a list of items *)

(** [d[k] = v]: an existing key keeps its position, a new key goes last. *)
Fixpoint dict_set (d : list (string * pyvalue)) (k : string) (v : pyvalue)
  : list (string * pyvalue) :=
  match d with
  | [] => [(k, v)]
  | (k', v') :: d' =>
      if bool_decide (k' = k) then (k, v) :: d' else (k', v') :: dict_set d' k v
  end.

(** [k in d] *)
Definition dict_mem (k : string) (d : list (string * pyvalue)) : bool :=
  bool_decide (k ∈ d.*1).

(** ** class TemporaryConfig *)
Module TemporaryConfig.

(** What the methods of a [TemporaryConfig] instance work on: the
    instance's own [_original_values] dict and the module-level name
    [GlobalConfig] they refer to.  config.py uses this name (lines 647,
    655, 656 and 668) and never binds it: [None] is the module as the file
    leaves it, where evaluating the name raises [NameError]; [Some σ] is
    the name bound to a [Config] instance with attributes [σ]. *)
Record world : Type := World {
  _original_values : list (string * pyvalue);
  GlobalConfig : option (gmap string pyvalue)
}.

(** The module as config.py leaves it: [GlobalConfig] is not bound. *)
Definition unbound : option (gmap string pyvalue) := None.

(** Modelled from the spec: the binding of the module-level name
    [GlobalConfig], which config.py uses and never binds.  The spec's
    GlobalRegistry is process-wide state "holding the full mapping of
    Setting name → current value", "initialized at process/module start
    with defaults" and read and written through its accessors: the name is
    taken to be bound to an instance of [Config] with attributes [σ]. *)
Definition bound (σ : gmap string pyvalue) : option (gmap string pyvalue) :=
  Some σ.

(** What evaluating an unbound global name raises. *)
Definition name_error : exn :=
  Exn NameError "name '%s' is not defined" [ArgStr "GlobalConfig"].

(** [f(GlobalConfig, ...)]: the name is evaluated first, which raises when
    it is not bound; otherwise [m] runs on the instance it is bound to. *)
Definition on_GlobalConfig {A} (m : M (gmap string pyvalue) A) : M world A :=
  λ w, match GlobalConfig w with
       | None => (Raise name_error, w)
       | Some σ => let '(r, σ') := m σ in (r, World (_original_values w) (Some σ'))
       end.

Definition __init__ : M world unit :=
  modify (λ w, World [] (GlobalConfig w)).

Definition __getattribute__ (name : string) : M world pyvalue :=
  on_GlobalConfig (Config.getattr name).

Definition __setattr__ (name : string) (value : pyvalue) : M world unit :=
  original_values ← gets _original_values ;
  (if negb (dict_mem name original_values) then
     current ← on_GlobalConfig (Config.getattr name) ;
     modify (λ w, World (dict_set (_original_values w) name current) (GlobalConfig w))
   else mret ()) ;;
  on_GlobalConfig (Config.setattr name value).

Definition __enter__ : M world unit := mret ().

(** The loop [for name, value in original_values.items(): setattr(...)]. *)
Fixpoint restore (items : list (string * pyvalue)) : M world unit :=
  match items with
  | [] => mret ()
  | (name, value) :: items' =>
      on_GlobalConfig (Config.setattr name value) ;; restore items'
  end.

Definition __exit__ : M world unit :=
  original_values ← gets _original_values ;
  restore original_values ;;
  modify (λ w, World [] (GlobalConfig w)).

(** [with TemporaryConfig() as cfg: body], run with the module-level name
    in state [g]: a new instance is built and entered, the body runs, and
    [__exit__] is called whether the body returned or raised.  [__exit__]
    returns [None], so an exception of the body is raised again after it;
    an exception raised by [__exit__] itself propagates instead. *)
Definition with_TemporaryConfig {A} (body : M world A)
  : M (option (gmap string pyvalue)) A :=
  λ g,
    let '(_, w0) := __init__ (World [] g) in
    let '(_, w1) := __enter__ w0 in
    let '(r, w2) := body w1 in
    let '(rx, w3) := __exit__ w2 in
    (match rx with Raise e => Raise e | Return _ => r end, GlobalConfig w3).

(** Statements of a scope body that go through the proxy [cfg]:
    [cfg.name], [cfg.name = value], and [raise e] for any error raised by
    other code of the body. *)
Inductive stmt : Type :=
  | Read (name : string)
  | Write (name : string) (value : pyvalue)
  | RaiseStmt (e : exn).

Fixpoint run (body : list stmt) : M world unit :=
  match body with
  | [] => mret ()
  | Read name :: rest => __getattribute__ name ;; run rest
  | Write name value :: rest => __setattr__ name value ;; run rest
  | RaiseStmt e :: _ => raise e
  end.

End TemporaryConfig.

(** ** class LocalConfig *)
Module LocalConfig.

Record self : Type := Self {
  categories : gmap string string;
  algorithms : gmap string (list string);
  params : gmap string (gmap string string)
}.

(** [d[k]] on a dict attribute, raising [KeyError(k)] when absent. *)
Definition getitem {V} (attr : self → gmap string V) (k : string) : M self V :=
  λ s, match attr s !! k with
       | Some v => (Return v, s)
       | None => (Raise (Exn KeyError "%r" [ArgStr k]), s)
       end.

(** [self.params[k] = v] *)
Definition setitem_params (k : string) (v : gmap string string) : M self unit :=
  modify (λ s, Self (categories s) (algorithms s) (<[k := v]> (params s))).

(** [self.algorithms[self.categories[category]]] *)
Definition admissible (category : string) : M self (list string) :=
  algorithm_type ← getitem categories category ;
  getitem algorithms algorithm_type.

Definition __configure_backend
  (backend : option string) (category : string) (reset : bool) : M self unit :=
  (if bool_decide (category ≠ "type") then
     raise (Exn UnsupportedBackendError
              "Backend category '%s' is not supported" [ArgStr category])
   else mret ()) ;;
  (if reset then mret () else mret ()) ;;
  let backend := match backend with None => "cv" | Some b => b end in
  supported ← admissible category ;
  (if negb (bool_decide (backend ∈ supported)) then
     supported' ← admissible category ;
     raise (Exn UnsupportedBackendError
              "Backend '%s' is not among the supported ones: %s"
              [ArgStr backend; ArgTuple supported'])
   else mret ()) ;;
  setitem_params category ∅ ;;
  selected ← getitem params category ;
  setitem_params category (<["backend" := backend]> selected).

Definition configure_backend
  (backend : option string) (category : string) (reset : bool) : M self unit :=
  __configure_backend backend category reset.

Definition configure (reset : bool) : M self unit :=
  configure_backend None "type" reset.

Definition __synchronize_backend
  (backend : option string) (category : string) (reset : bool) : M self unit :=
  (if bool_decide (category ≠ "type") then
     raise (Exn UnsupportedBackendError
              "Backend category '%s' is not supported" [ArgStr category])
   else mret ()) ;;
  (if reset then mret () else mret ()) ;;
  let backend := match backend with None => "cv" | Some b => b end in
  supported ← admissible category ;
  if negb (bool_decide (backend ∈ supported)) then
    raise (Exn UninitializedBackendError
             "Backend '%s' has not been configured yet" [ArgStr backend])
  else mret ().

Definition synchronize_backend
  (backend : option string) (category : string) (reset : bool) : M self unit :=
  __synchronize_backend backend category reset.

Definition synchronize (reset : bool) : M self unit :=
  synchronize_backend None "type" reset.

Definition __init__ (configure synchronize : bool) : M self unit :=
  modify (λ _, Self ∅ ∅ ∅) ;;
  modify (λ s, Self (<["type" := "backend_types"]> (categories s))
                    (algorithms s) (params s)) ;;
  modify (λ s, Self (categories s)
                    (<["backend_types" := ["cv"; "dc"]]> (algorithms s))
                    (params s)) ;;
  (if configure then __configure_backend None "type" false else mret ()) ;;
  (if synchronize then __synchronize_backend None "type" false else mret ()).

(** [LocalConfig(configure, synchronize)]: outcome of the constructor and
    the attributes of the object it worked on. *)
Definition new (configure synchronize : bool) : outcome unit * self :=
  __init__ configure synchronize (Self ∅ ∅ ∅).

End LocalConfig.

(** * Vocabulary of the statements *)

Section ConfigDescription.
Import Config.

(** The instance attribute behind a property. *)
Definition backing_field (p : property) : string :=
  match p with
  | P_toggle_delay => "_toggle_delay"
  | P_click_delay => "_click_delay"
  | P_delay_after_drag => "_drag_delay"
  | P_delay_before_drop => "_drop_delay"
  | P_delay_before_keys => "_keys_delay"
  | P_delay_between_keys => "_type_delay"
  | P_rescan_speed_on_find => "_rescan_speed_on_find"
  | P_wait_for_animations => "_wait_for_animations"
  | P_smooth_mouse_drag => "_smooth_mouse_drag"
  | P_preprocess_special_chars => "_preprocess_special_chars"
  | P_save_needle_on_error => "_save_needle_on_error"
  | P_image_logging_level => "_image_logging_level"
  | P_image_logging_step_width => "_image_logging_step_width"
  | P_image_quality => "_image_quality"
  | P_image_logging_destination => "_image_logging_destination"
  | P_display_control_backend => "_display_control_backend"
  | P_find_backend => "_find_backend"
  | P_contour_threshold_backend => "_contour_threshold_backend"
  | P_template_match_backend => "_template_match_backend"
  | P_feature_detect_backend => "_feature_detect_backend"
  | P_feature_extract_backend => "_feature_extract_backend"
  | P_feature_match_backend => "_feature_match_backend"
  | P_text_detect_backend => "_text_detect_backend"
  | P_text_ocr_backend => "_text_ocr_backend"
  | P_deep_learn_backend => "_deep_learn_backend"
  | P_hybrid_match_backend => "_hybrid_match_backend"
  end.

(** The four settings whose accessor demands a bool. *)
Definition boolean_settings : list property :=
  [P_wait_for_animations; P_smooth_mouse_drag; P_preprocess_special_chars;
   P_save_needle_on_error].

(** The test an accessor applies to a value that is not [None] before it
    stores it. *)
Definition passes (p : property) (v : pyvalue) : bool :=
  match p with
  | P_wait_for_animations | P_smooth_mouse_drag | P_preprocess_special_chars
  | P_save_needle_on_error => is_True_or_False v
  | P_display_control_backend =>
      in_strs v ["autopy"; "xdotool"; "vncdotool"; "qemu"; "pyautogui"]
  | _ => true
  end.

(** The values an accessor stores: not [None], and passing its test. *)
Definition accepts (p : property) (v : pyvalue) : bool :=
  negb (is_None v) && passes p v.

(** The exception an accessor raises for a value that fails its test. *)
Definition rejection (p : property) (v : pyvalue) : exn :=
  match p with
  | P_display_control_backend =>
      Exn ValueError "Unsupported backend for GUI actions '%s'" [ArgValue v]
  | _ => Exn ValueError "" []
  end.

(** The key of the instance dictionary an attribute name reads and writes:
    the backing field for a property, the name itself otherwise. *)
Definition slot (attr : string) : string :=
  match lookup_property attr with
  | Some p => backing_field p
  | None => attr
  end.

(** The values [setattr] stores under a name. *)
Definition storable (attr : string) (v : pyvalue) : bool :=
  match lookup_property attr with
  | Some p => accepts p v
  | None => true
  end.

(** Every backing field that is set holds a value its accessor accepts.
    This is what [Config()] establishes and what writes through the
    attributes of the class keep. *)
Definition registry_ok (σ : gmap string pyvalue) : bool :=
  forallb (λ p, match σ !! backing_field p with
                | Some v => accepts p v
                | None => true
                end) properties.

(** Attribute names that are not themselves a backing field: the
    properties and the plain instance attributes such as
    [screen_autoconnect]. *)
Definition public (attr : string) : bool :=
  negb (bool_decide (attr ∈ backing_field <$> properties)).

(** The properties [__init__] leaves without a value: it assigns
    [drag_delay], [drop_delay], [keys_delay] and [type_delay], names that
    are not properties of the class. *)
Definition uninitialised : list property :=
  [P_delay_after_drag; P_delay_before_drop; P_delay_before_keys;
   P_delay_between_keys].

(** The registry after a sequence of assignments [GlobalConfig.attr = v]
    by a caller that carries on when one of them raises. *)
Fixpoint after_writes (ws : list (string * pyvalue)) (σ : gmap string pyvalue)
  : gmap string pyvalue :=
  match ws with
  | [] => σ
  | (attr, v) :: ws' => after_writes ws' (setattr attr v σ).2
  end.

(** Names that start with two underscores: the only names Python can
    resolve on the class [Config] or on [object] besides the properties,
    and the only ones it may refuse to assign.  [getattr] and [setattr]
    above model the other names exactly. *)
Definition dunder (attr : string) : bool := String.prefix "__" attr.

End ConfigDescription.

Section ScopeDescription.
Import TemporaryConfig.

(** Only assignments need a public name: reads and raises write nothing. *)
Definition public_stmt (s : stmt) : bool :=
  match s with
  | Write name _ => public name
  | _ => true
  end.

(** The statements that stay within the names the model covers exactly:
    assignments to settings (public names without a leading double
    underscore) and reads of names without a leading double underscore. *)
Definition setting_stmt (s : stmt) : bool :=
  match s with
  | Write name _ => public name && negb (dunder name)
  | Read name => negb (dunder name)
  | RaiseStmt _ => true
  end.

(** A statement of a scope body that works on the module-level name
    itself rather than through the proxy, such as a nested [with]
    statement. *)
Definition on_module {A} (m : M (option (gmap string pyvalue)) A) : M world A :=
  λ w, let '(r, g) := m (GlobalConfig w) in (r, World (_original_values w) g).

(** A snapshot whose names all stay within what the model covers. *)
Definition plain_snapshot (o : list (string * pyvalue)) : bool :=
  forallb (λ item : string * pyvalue, negb (dunder item.1)) o.

(** The state of a scope entered with [GlobalConfig] bound to the registry
    [σ0]: the name is still bound, every snapshot entry is for a public
    name and holds what [σ0] had in its slot, and the registry differs from
    [σ0] at most in the slots of the snapshot. *)
Definition scope_inv (σ0 : gmap string pyvalue) (w : world) : Prop :=
  match GlobalConfig w with
  | None => False
  | Some σ =>
      (∀ n v, (n, v) ∈ _original_values w →
              public n = true ∧ σ0 !! slot n = Some v)
      ∧ (∀ k, k ∉ slot <$> (_original_values w).*1 → σ !! k = σ0 !! k)
  end.

End ScopeDescription.

Section LocalDescription.
Import LocalConfig.

(** [backend = "cv" if backend is None else backend] *)
Definition selected_backend (backend : option string) : string :=
  match backend with None => "cv" | Some b => b end.

(** [backend in self.algorithms[self.categories[category]]], with both
    subscripts defined. *)
Definition is_admissible (s : self) (category backend : string) : Prop :=
  ∃ algorithm_type supported,
    categories s !! category = Some algorithm_type
    ∧ algorithms s !! algorithm_type = Some supported
    ∧ backend ∈ supported.

(** The object built by [LocalConfig(configure=False, synchronize=False)]:
    categories and algorithms are filled in, nothing is configured. *)
Definition unconfigured : self := (LocalConfig.new false false).2.

End LocalDescription.

Ltac unfold_accessor :=
  cbv [Config.accessor Config.toggle_delay Config.click_delay
       Config.delay_after_drag Config.delay_before_drop
       Config.delay_before_keys Config.delay_between_keys
       Config.rescan_speed_on_find Config.wait_for_animations
       Config.smooth_mouse_drag Config.preprocess_special_chars
       Config.save_needle_on_error Config.image_logging_level
       Config.image_logging_step_width Config.image_quality
       Config.image_logging_destination Config.display_control_backend
       Config.find_backend Config.contour_threshold_backend
       Config.template_match_backend Config.feature_detect_backend
       Config.feature_extract_backend Config.feature_match_backend
       Config.text_detect_backend Config.text_ocr_backend
       Config.deep_learn_backend Config.hybrid_match_backend
       backing_field passes].

Ltac unfold_M :=
  cbv [mbind M_bind mret M_ret raise gets modify Config.setfield].

(** * Properties of the registry accessors *)

Section ConfigFacts.
Import Config.

(** Called with [None], an accessor is the read of its backing field. *)
Lemma accessor_None p σ : accessor p VNone σ = getfield (backing_field p) σ.
Proof. destruct p; reflexivity. Qed.

(** Called with a value it accepts, an accessor stores it and returns
    [None]. *)
Lemma accessor_accepts p v σ :
  accepts p v = true →
  accessor p v σ = (Return VNone, <[backing_field p := v]> σ).
Proof.
  unfold accepts. intros [Hn Hp]%andb_prop.
  destruct v; try discriminate Hn;
    destruct p; cbn [passes is_True_or_False] in Hp; try discriminate Hp;
    try reflexivity;
    unfold_accessor; cbn [is_None]; rewrite Hp; reflexivity.
Qed.

(** Called with a value that is not [None] and fails its test, an accessor
    raises and leaves the attributes alone. *)
Lemma accessor_rejects p v σ :
  is_None v = false → passes p v = false →
  accessor p v σ = (Raise (rejection p v), σ).
Proof.
  intros Hn Hp.
  destruct p; cbn [passes] in Hp; try discriminate Hp;
    unfold_accessor; rewrite Hn, Hp; reflexivity.
Qed.

Lemma rejection_class p v : exn_class_of (rejection p v) = ValueError.
Proof. by destruct p. Qed.

Lemma accepts_not_None p v : accepts p v = true → v ≠ VNone.
Proof. by intros H ->. Qed.

(** The three behaviours of an accessor. *)
Lemma accessor_cases p v σ :
  (v = VNone ∧ accessor p v σ = getfield (backing_field p) σ)
  ∨ (accepts p v = true
     ∧ accessor p v σ = (Return VNone, <[backing_field p := v]> σ))
  ∨ (v ≠ VNone ∧ accepts p v = false
     ∧ accessor p v σ = (Raise (rejection p v), σ)).
Proof.
  destruct (is_None v) eqn:Hn.
  - left. destruct v; try discriminate. split; [done | apply accessor_None].
  - destruct (passes p v) eqn:Hp.
    + right; left. assert (accepts p v = true) as Ha by (unfold accepts; by rewrite Hn, Hp).
      split; [done | by apply accessor_accepts].
    + right; right. split; [by intros -> |]. split.
      * unfold accepts. by rewrite Hn, Hp.
      * by apply accessor_rejects.
Qed.

Lemma getfield_Some f σ x : σ !! f = Some x → getfield f σ = (Return x, σ).
Proof. unfold getfield. by intros ->. Qed.

Lemma getfield_state f σ : (getfield f σ).2 = σ.
Proof. unfold getfield. by destruct (σ !! f). Qed.

Lemma getfield_Return f σ x σ' :
  getfield f σ = (Return x, σ') → σ' = σ ∧ σ !! f = Some x.
Proof. unfold getfield. destruct (σ !! f); naive_solver. Qed.

(** *** Attribute names *)

Lemma properties_complete p : p ∈ properties.
Proof. destruct p; unfold properties; set_solver. Qed.

Lemma lookup_property_name p : lookup_property (name p) = Some p.
Proof. by destruct p. Qed.

Lemma lookup_property_Some attr p : lookup_property attr = Some p → name p = attr.
Proof.
  unfold lookup_property. intros [_ H]%find_some.
  by apply bool_decide_eq_true in H.
Qed.

Lemma backing_field_inj p q : backing_field p = backing_field q → p = q.
Proof. destruct p, q; (reflexivity || discriminate). Qed.

Lemma slot_name p : slot (name p) = backing_field p.
Proof. unfold slot. by rewrite lookup_property_name. Qed.

Lemma storable_name p v : storable (name p) v = accepts p v.
Proof. unfold storable. by rewrite lookup_property_name. Qed.

Lemma getattr_slot attr σ : getattr attr σ = getfield (slot attr) σ.
Proof.
  unfold getattr, slot. destruct (lookup_property attr); [apply accessor_None | done].
Qed.

Lemma getattr_Some attr σ x : σ !! slot attr = Some x → getattr attr σ = (Return x, σ).
Proof. rewrite getattr_slot. apply getfield_Some. Qed.

Lemma getattr_Return attr σ x σ' :
  getattr attr σ = (Return x, σ') → σ' = σ ∧ σ !! slot attr = Some x.
Proof. rewrite getattr_slot. apply getfield_Return. Qed.

Lemma getattr_outcome attr σ x :
  (getattr attr σ).1 = Return x → σ !! slot attr = Some x.
Proof.
  rewrite getattr_slot. unfold getfield.
  destruct (σ !! slot attr); cbn; congruence.
Qed.

Lemma getattr_state attr σ : (getattr attr σ).2 = σ.
Proof. rewrite getattr_slot. apply getfield_state. Qed.

Lemma setattr_storable attr v σ :
  storable attr v = true → setattr attr v σ = (Return (), <[slot attr := v]> σ).
Proof.
  unfold storable, setattr, slot. destruct (lookup_property attr) as [p|]; [|done].
  intros Ha. unfold_M. by rewrite accessor_accepts.
Qed.

(** [setattr] touches no key but the slot of its name. *)
Lemma setattr_frame attr v σ k :
  k ≠ slot attr → (setattr attr v σ).2 !! k = σ !! k.
Proof.
  unfold setattr, slot. destruct (lookup_property attr) as [p|].
  - intros Hk. unfold_M.
    destruct (accessor_cases p v σ) as [[_ ->]|[[_ ->]|(_ & _ & ->)]]; cbn.
    + pose proof (getfield_state (backing_field p) σ) as Hs.
      destruct (getfield _ σ) as [[?|?] ?]; cbn in *; by subst.
    + by rewrite lookup_insert_ne.
    + done.
  - intros Hk. unfold_M. cbn. by rewrite lookup_insert_ne.
Qed.

End ConfigFacts.

(** * Well-formed registries *)

Section Registry.
Import Config.

Lemma registry_ok_spec σ :
  registry_ok σ = true ↔
  ∀ p v, σ !! backing_field p = Some v → accepts p v = true.
Proof.
  unfold registry_ok. rewrite forallb_forall. split.
  - intros H p v Hv. specialize (H p). rewrite Hv in H. apply H.
    apply list_elem_of_In, properties_complete.
  - intros H p _. destruct (σ !! backing_field p) eqn:E; [eauto | done].
Qed.

Lemma registry_ok_storable σ attr v :
  registry_ok σ = true → σ !! slot attr = Some v → storable attr v = true.
Proof.
  rewrite registry_ok_spec. unfold slot, storable.
  destruct (lookup_property attr); eauto.
Qed.

Lemma registry_ok_new : registry_ok Config.new = true.
Proof. vm_compute. reflexivity. Qed.

(** [__init__] assigns [drag_delay], [drop_delay], [keys_delay] and
    [type_delay], which are not properties: the fields behind the four
    [delay_*] properties stay unset, and reading one of them on a new
    instance raises. *)
Lemma new_delay_fields_unset :
  Forall (λ p, Config.new !! backing_field p = None)
         [P_delay_after_drag; P_delay_before_drop; P_delay_before_keys;
          P_delay_between_keys]
  ∧ (getattr "delay_after_drag" Config.new).1
    = Raise (Exn AttributeError "'Config' object has no attribute '%s'"
               [ArgStr "_drag_delay"]).
Proof. split; [repeat constructor | by vm_compute]. Qed.

Lemma public_not_field attr p : public attr = true → attr ≠ backing_field p.
Proof.
  unfold public. rewrite negb_true_iff, bool_decide_eq_false.
  intros H ->. apply H, list_elem_of_fmap. eauto using properties_complete.
Qed.

Lemma public_name p : public (name p) = true.
Proof. by destruct p. Qed.

(** Distinct public names never share a slot. *)
Lemma slot_inj a b :
  public a = true → public b = true → slot a = slot b → a = b.
Proof.
  intros Ha Hb. unfold slot.
  destruct (lookup_property a) as [p|] eqn:Ea, (lookup_property b) as [q|] eqn:Eb.
  - intros ->%backing_field_inj.
    apply lookup_property_Some in Ea, Eb. congruence.
  - intros E. by destruct (public_not_field b p Hb).
  - intros E. by destruct (public_not_field a q Ha).
  - done.
Qed.

(** Assignments to public attributes keep the registry well formed,
    whether they return or raise. *)
Lemma registry_ok_setattr attr v σ :
  public attr = true → registry_ok σ = true →
  registry_ok (setattr attr v σ).2 = true.
Proof.
  intros Hpub. rewrite !registry_ok_spec. intros Hok q w.
  unfold setattr. destruct (lookup_property attr) as [p|] eqn:E; unfold_M.
  - destruct (accessor_cases p v σ) as [[_ ->]|[[Ha ->]|(_ & _ & ->)]]; cbn.
    + pose proof (getfield_state (backing_field p) σ) as Hs.
      destruct (getfield _ σ) as [[?|?] ?]; cbn in *; subst; apply Hok.
    + destruct (decide (q = p)) as [->|Hne].
      * rewrite lookup_insert_eq. congruence.
      * rewrite lookup_insert_ne; [apply Hok|]. by intros ?%backing_field_inj.
    + apply Hok.
  - cbn. rewrite lookup_insert_ne; [apply Hok|].
    intros ->. by destruct (public_not_field _ q Hpub).
Qed.

End Registry.

(** * Properties of the temporary configuration *)

Section ScopeFacts.
Import Config TemporaryConfig.

Lemma dict_set_fresh d k v : dict_mem k d = false → dict_set d k v = d ++ [(k, v)].
Proof.
  unfold dict_mem. rewrite bool_decide_eq_false.
  induction d as [|[k' v'] d IH]; cbn; [done|].
  intros Hk. rewrite not_elem_of_cons in Hk. destruct Hk as [Hne Hk].
  rewrite bool_decide_eq_false_2 by done. by rewrite IH.
Qed.

(** With the name unbound every forwarded call raises [NameError] and
    leaves everything as it is. *)
Lemma on_GlobalConfig_unbound {A} (m : M (gmap string pyvalue) A) o :
  on_GlobalConfig m (World o None) = (Raise name_error, World o None).
Proof. done. Qed.

Lemma on_GlobalConfig_bound {A} (m : M (gmap string pyvalue) A) o σ :
  on_GlobalConfig m (World o (Some σ))
  = ((m σ).1, World o (Some (m σ).2)).
Proof. unfold on_GlobalConfig. cbn. by destruct (m σ). Qed.

Lemma scope_inv_entry σ : scope_inv σ (World [] (Some σ)).
Proof. split; cbn; [intros n v H; by apply elem_of_nil in H | done]. Qed.

Lemma slot_in_snapshot (d : list (string * pyvalue)) n :
  n ∈ d.*1 → slot n ∈ slot <$> d.*1.
Proof. intros H. apply list_elem_of_fmap. eauto. Qed.

Lemma scope_inv_setattr_known σ0 o σ n v :
  n ∈ o.*1 → scope_inv σ0 (World o (Some σ)) →
  scope_inv σ0 (World o (Some (setattr n v σ).2)).
Proof.
  intros Hn [H1 H2]. split; cbn in *; [done|].
  intros k Hk. rewrite setattr_frame; [by apply H2|].
  intros ->. by apply Hk, slot_in_snapshot.
Qed.

Lemma scope_inv_setattr_new σ0 o σ n cur v :
  public n = true → n ∉ o.*1 → σ !! slot n = Some cur →
  scope_inv σ0 (World o (Some σ)) →
  scope_inv σ0 (World (o ++ [(n, cur)]) (Some (setattr n v σ).2)).
Proof.
  intros Hpub Hn Hcur [H1 H2]. cbn in *.
  assert (slot n ∉ slot <$> o.*1) as Hslot.
  { intros (m & Em & Hm)%list_elem_of_fmap.
    apply list_elem_of_fmap in Hm as Hm'. destruct Hm' as ([m' x] & -> & Hmx).
    destruct (H1 _ _ Hmx) as [Hpm _]. cbn in *.
    apply (slot_inj _ _ Hpub Hpm) in Em. by subst. }
  split; cbn.
  - intros m x [Hmx|Hmx%list_elem_of_singleton]%elem_of_app; [by apply H1|].
    injection Hmx as -> ->. split; [done|]. by rewrite <- H2.
  - intros k Hk. rewrite fmap_app, fmap_app in Hk. cbn in Hk.
    apply not_elem_of_app in Hk as [Hk1 Hk2].
    rewrite setattr_frame; [by apply H2|].
    intros ->. apply Hk2, list_elem_of_singleton. done.
Qed.

(** What [__setattr__] does once the name is bound, case by case. *)
Lemma setattr_bound n v o σ :
  __setattr__ n v (World o (Some σ)) =
  if dict_mem n o then
    ((setattr n v σ).1, World o (Some (setattr n v σ).2))
  else
    match σ !! slot n with
    | None =>
        (Raise (Exn AttributeError "'Config' object has no attribute '%s'"
                  [ArgStr (slot n)]), World o (Some σ))
    | Some cur =>
        ((setattr n v σ).1, World (o ++ [(n, cur)]) (Some (setattr n v σ).2))
    end.
Proof.
  unfold __setattr__, on_GlobalConfig. unfold_M. cbn.
  destruct (dict_mem n o) eqn:Hmem; cbn.
  - by destruct (setattr n v σ) as [[[]|e] σ'].
  - rewrite getattr_slot. unfold getfield.
    destruct (σ !! slot n) as [cur|]; cbn; [|done].
    rewrite dict_set_fresh by done.
    by destruct (setattr n v σ) as [[[]|e] σ'].
Qed.

Lemma setattr_unbound n v o :
  __setattr__ n v (World o None) = (Raise name_error, World o None).
Proof.
  unfold __setattr__, on_GlobalConfig. unfold_M. cbn.
  by destruct (dict_mem n o).
Qed.

Lemma scope_inv_setattr σ0 w n v :
  public n = true → scope_inv σ0 w → scope_inv σ0 (__setattr__ n v w).2.
Proof.
  intros Hpub Hinv. destruct w as [o [σ|]]; [|done].
  rewrite setattr_bound. destruct (dict_mem n o) eqn:Hmem; cbn.
  - apply bool_decide_eq_true in Hmem. by apply scope_inv_setattr_known.
  - destruct (σ !! slot n) as [cur|] eqn:Hcur; cbn; [|done].
    apply bool_decide_eq_false in Hmem. by apply scope_inv_setattr_new.
Qed.

(** Each name is recorded at most once in a scope. *)
Lemma dict_set_keys d k v :
  (dict_set d k v).*1 = if dict_mem k d then d.*1 else d.*1 ++ [k].
Proof.
  unfold dict_mem. induction d as [|[k' v'] d IH]; cbn.
  - by rewrite bool_decide_eq_false_2 by apply not_elem_of_nil.
  - destruct (decide (k' = k)) as [->|Hne].
    + rewrite bool_decide_eq_true_2 by done.
      rewrite bool_decide_eq_true_2; [done|]. apply elem_of_cons. by left.
    + rewrite (bool_decide_eq_false_2 (k' = k)) by done. cbn. rewrite IH.
      destruct (decide (k ∈ d.*1)) as [Hin|Hnin].
      * rewrite !bool_decide_eq_true_2; [done| |done]. apply elem_of_cons. by right.
      * rewrite !bool_decide_eq_false_2; [done| |done].
        intros [?|?]%elem_of_cons; congruence.
Qed.

Lemma setattr_snapshot_NoDup n v w :
  NoDup (_original_values w).*1 →
  NoDup (_original_values (__setattr__ n v w).2).*1.
Proof.
  intros Hnd. destruct w as [o [σ|]]; cbn in Hnd.
  - rewrite setattr_bound. destruct (dict_mem n o) eqn:Hmem; cbn; [done|].
    destruct (σ !! slot n) as [cur|]; cbn; [|done].
    rewrite fmap_app. apply NoDup_app. split; [done|].
    split; [|apply NoDup_singleton].
    intros k Hk ->%list_elem_of_singleton.
    unfold dict_mem in Hmem. by apply bool_decide_eq_false in Hmem.
  - by rewrite setattr_unbound.
Qed.

Lemma getattribute_unfold name w :
  __getattribute__ name w =
  match GlobalConfig w with
  | None => (Raise name_error, w)
  | Some σ => ((getattr name σ).1, w)
  end.
Proof.
  destruct w as [o [σ|]]; [|done].
  unfold __getattribute__. rewrite on_GlobalConfig_bound. cbn.
  by rewrite getattr_state.
Qed.

Lemma getattribute_state n w : (__getattribute__ n w).2 = w.
Proof. rewrite getattribute_unfold. by destruct (GlobalConfig w). Qed.

Lemma scope_inv_run σ0 body : ∀ w,
  forallb public_stmt body = true → scope_inv σ0 w →
  scope_inv σ0 (run body w).2.
Proof.
  induction body as [|s body IH]; intros w Hpub Hinv; [done|].
  cbn in Hpub. apply andb_prop in Hpub as [Hs Hbody].
  destruct s as [n|n v|e]; cbn [run]; unfold mbind, M_bind.
  - pose proof (getattribute_state n w) as Hw.
    destruct (__getattribute__ n w) as [[x|e] w']; cbn in Hw; subst w'; [|done].
    by apply IH.
  - pose proof (scope_inv_setattr σ0 w n v Hs Hinv) as Hw.
    destruct (__setattr__ n v w) as [[[]|e] w']; cbn in Hw; [|done].
    by apply IH.
  - done.
Qed.

(** Restoring a list of items that hold what [σ0] had in their slots puts
    these slots back to [σ0] and never raises. *)
Lemma restore_spec σ0 items : ∀ o σ,
  registry_ok σ0 = true →
  (∀ n v, (n, v) ∈ items → public n = true ∧ σ0 !! slot n = Some v) →
  ∃ σ', restore items (World o (Some σ)) = (Return (), World o (Some σ'))
        ∧ ∀ k, σ' !! k = if decide (k ∈ slot <$> items.*1) then σ0 !! k else σ !! k.
Proof.
  induction items as [|[n v] items IH]; intros o σ Hok Hitems.
  - exists σ. split; [done|]. intros k. rewrite decide_False; [done|].
    cbn. apply not_elem_of_nil.
  - destruct (Hitems n v) as [Hpub Hv]; [apply elem_of_cons; by left|].
    destruct (IH o (<[slot n := v]> σ) Hok) as (σ' & Hrun & Hσ').
    { intros m x Hm. apply Hitems, elem_of_cons. by right. }
    exists σ'. split.
    + cbn [restore]. unfold mbind, M_bind. rewrite on_GlobalConfig_bound.
      rewrite setattr_storable by eauto using registry_ok_storable.
      exact Hrun.
    + intros k. rewrite Hσ'. cbn.
      destruct (decide (k ∈ slot <$> items.*1)) as [Hin|Hnin].
      * rewrite decide_True; [done|]. apply elem_of_cons. by right.
      * destruct (decide (k = slot n)) as [->|Hne].
        -- rewrite decide_True; [|apply elem_of_cons; by left].
           by rewrite lookup_insert_eq.
        -- rewrite decide_False; [by rewrite lookup_insert_ne|].
           intros [?|?]%elem_of_cons; done.
Qed.

Lemma exit_unfold w :
  __exit__ w =
  match restore (_original_values w) w with
  | (Return _, w') => (Return (), World [] (GlobalConfig w'))
  | (Raise e, w') => (Raise e, w')
  end.
Proof.
  unfold __exit__. unfold_M.
  by destruct (restore (_original_values w) w) as [[[]|e] w'].
Qed.

Lemma exit_spec σ0 w :
  registry_ok σ0 = true → scope_inv σ0 w →
  __exit__ w = (Return (), World [] (Some σ0)).
Proof.
  intros Hok Hinv. destruct w as [o [σ|]]; [|done]. destruct Hinv as [H1 H2].
  cbn in *.
  destruct (restore_spec σ0 o o σ Hok H1) as (σ' & Hrun & Hσ').
  rewrite exit_unfold. cbn. rewrite Hrun. cbn.
  f_equal. f_equal. f_equal. apply map_eq. intros k. rewrite Hσ'.
  destruct (decide (k ∈ slot <$> o.*1)); [done | by apply H2].
Qed.

(** With [GlobalConfig] bound to a well-formed registry, a scope whose body
    assigns public attributes through the proxy hands back the registry it
    was entered on, with the outcome of the body. *)
Lemma scope_restores σ body :
  registry_ok σ = true → forallb public_stmt body = true →
  with_TemporaryConfig (run body) (Some σ)
  = ((run body (World [] (Some σ))).1, Some σ).
Proof.
  intros Hok Hpub. unfold with_TemporaryConfig, __init__, __enter__. unfold_M. cbn.
  pose proof (scope_inv_run σ body (World [] (Some σ)) Hpub (scope_inv_entry σ)) as Hinv.
  destruct (run body (World [] (Some σ))) as [r w2]. cbn in *.
  rewrite (exit_spec σ w2 Hok Hinv). by destruct r.
Qed.

Lemma setting_stmt_public body :
  forallb setting_stmt body = true → forallb public_stmt body = true.
Proof.
  induction body as [|s body IH]; [done|]. cbn.
  intros [Hs Hb]%andb_prop. rewrite (IH Hb), andb_true_r.
  destruct s; cbn in *; [done| |done]. by apply andb_prop in Hs as [? _].
Qed.

End ScopeFacts.

(** * Properties of the local backend container *)

Section LocalFacts.
Import LocalConfig.

Lemma admissible_unfold category s :
  admissible category s =
  match categories s !! category with
  | None => (Raise (Exn KeyError "%r" [ArgStr category]), s)
  | Some t =>
      match algorithms s !! t with
      | None => (Raise (Exn KeyError "%r" [ArgStr t]), s)
      | Some l => (Return l, s)
      end
  end.
Proof.
  unfold admissible, getitem. unfold_M.
  destruct (categories s !! category) as [t|]; [|done].
  by destruct (algorithms s !! t).
Qed.

(** [if reset: pass] does nothing. *)
Lemma reset_pass (reset : bool) :
  (if reset then mret () else mret ()) = (mret () : M self unit).
Proof. by destruct reset. Qed.

(** What [configure_backend] does, case by case. *)
Lemma configure_backend_unfold backend category reset s :
  configure_backend backend category reset s =
  if bool_decide (category ≠ "type") then
    (Raise (Exn UnsupportedBackendError
              "Backend category '%s' is not supported" [ArgStr category]), s)
  else
    match admissible category s with
    | (Raise e, _) => (Raise e, s)
    | (Return supported, _) =>
        if bool_decide (selected_backend backend ∈ supported) then
          (Return (),
           Self (categories s) (algorithms s)
                (<[category := <["backend" := selected_backend backend]> ∅]> (params s)))
        else
          (Raise (Exn UnsupportedBackendError
                    "Backend '%s' is not among the supported ones: %s"
                    [ArgStr (selected_backend backend); ArgTuple supported]), s)
    end.
Proof.
  unfold configure_backend, __configure_backend, selected_backend.
  rewrite reset_pass. unfold mbind at 1. unfold M_bind at 1.
  destruct (bool_decide (category ≠ "type")); [done|]. unfold_M.
  rewrite admissible_unfold.
  destruct (categories s !! category) as [t|] eqn:Et; [|done].
  destruct (algorithms s !! t) as [l|] eqn:El; [|done].
  destruct (bool_decide (_ ∈ l)) eqn:Hin; cbn.
  - unfold setitem_params, getitem. unfold_M. cbn.
    rewrite lookup_insert_eq. cbn. by rewrite insert_insert_eq.
  - rewrite admissible_unfold, Et, El. done.
Qed.

(** What [synchronize_backend] does, case by case. *)
Lemma synchronize_backend_unfold backend category reset s :
  synchronize_backend backend category reset s =
  if bool_decide (category ≠ "type") then
    (Raise (Exn UnsupportedBackendError
              "Backend category '%s' is not supported" [ArgStr category]), s)
  else
    match admissible category s with
    | (Raise e, _) => (Raise e, s)
    | (Return supported, _) =>
        if bool_decide (selected_backend backend ∈ supported) then (Return (), s)
        else
          (Raise (Exn UninitializedBackendError
                    "Backend '%s' has not been configured yet"
                    [ArgStr (selected_backend backend)]), s)
    end.
Proof.
  unfold synchronize_backend, __synchronize_backend, selected_backend.
  rewrite reset_pass. unfold mbind at 1. unfold M_bind at 1.
  destruct (bool_decide (category ≠ "type")); [done|]. unfold_M.
  rewrite admissible_unfold.
  destruct (categories s !! category) as [t|] eqn:Et; [|done].
  destruct (algorithms s !! t) as [l|] eqn:El; [|done].
  by destruct (bool_decide (_ ∈ l)).
Qed.

Lemma synchronize_backend_state backend category reset s :
  (synchronize_backend backend category reset s).2 = s.
Proof.
  rewrite synchronize_backend_unfold.
  destruct (bool_decide (category ≠ "type")); [done|].
  destruct (admissible category s) as [[l|e] ?]; [|done].
  by destruct (bool_decide (_ ∈ l)).
Qed.

Lemma synchronize_backend_Return backend category reset s :
  (synchronize_backend backend category reset s).1 = Return () ↔
  category = "type" ∧ is_admissible s category (selected_backend backend).
Proof.
  rewrite synchronize_backend_unfold, admissible_unfold. unfold is_admissible.
  destruct (bool_decide (category ≠ "type")) eqn:Hc.
  { apply bool_decide_eq_true in Hc. cbn. split; [done | by intros [? _]]. }
  apply bool_decide_eq_false in Hc. apply dec_stable in Hc.
  destruct (categories s !! category) as [t|] eqn:Et.
  2: { cbn. split; [done | by intros [_ (? & ? & ? & _)]]. }
  destruct (algorithms s !! t) as [l|] eqn:El.
  2: { cbn. split; [done|]. intros [_ (t' & l' & Ht' & Hl' & _)]. congruence. }
  destruct (bool_decide (_ ∈ l)) eqn:Hin; cbn.
  - apply bool_decide_eq_true in Hin. split; [|done].
    intros _. split; [done|]. by exists t, l.
  - apply bool_decide_eq_false in Hin. split; [done|].
    intros [_ (t' & l' & Ht' & Hl' & Hmem)]. congruence.
Qed.

End LocalFacts.

(** * Scoped overrides in the module as it stands *)

Section ScopeClaims.
Import Config TemporaryConfig.

Lemma dict_mem_nil k : dict_mem k [] = false.
Proof. unfold dict_mem. apply bool_decide_eq_false, not_elem_of_nil. Qed.

Lemma dict_mem_head k v d : dict_mem k ((k, v) :: d) = true.
Proof. unfold dict_mem. apply bool_decide_eq_true. cbn. apply elem_of_cons. by left. Qed.

(** With the name bound, the first assignment of a scope records the
    current value and then writes. *)
Lemma setattr_first attr x y σ :
  σ !! slot attr = Some x → storable attr y = true →
  __setattr__ attr y (World [] (Some σ))
  = (Return (), World [(attr, x)] (Some (<[slot attr := y]> σ))).
Proof.
  intros Hx Hy. rewrite setattr_bound, dict_mem_nil, Hx.
  by rewrite setattr_storable.
Qed.

(** A later assignment to a recorded name only writes. *)
Lemma setattr_again attr x z d σ :
  storable attr z = true →
  __setattr__ attr z (World ((attr, x) :: d) (Some σ))
  = (Return (), World ((attr, x) :: d) (Some (<[slot attr := z]> σ))).
Proof.
  intros Hz. rewrite setattr_bound, dict_mem_head.
  by rewrite setattr_storable.
Qed.

(** C1 (defect of the code): config.py never binds the module-level name
    [GlobalConfig] that [__setattr__] and [__exit__] refer to.  In the
    module as it stands, for every setting and all values [y] and [z],
    the first write of the scope raises [NameError] before anything is
    recorded or written, the second write is never reached, and the
    [with] statement ends with that [NameError], the name still unbound:
    no value is set inside the scope and none is restored. *)
Theorem scope_two_writes_raise_NameError attr y z :
  __setattr__ attr y (World [] unbound) = (Raise name_error, World [] unbound)
  ∧ run [Write attr y; Write attr z] (World [] unbound)
    = (Raise name_error, World [] unbound)
  ∧ with_TemporaryConfig (run [Write attr y; Write attr z]) unbound
    = (Raise name_error, unbound).
Proof.
  unfold unbound.
  assert (run [Write attr y; Write attr z] (World [] None)
          = (Raise name_error, World [] None)) as Hrun.
  { cbn [run]. unfold mbind, M_bind. by rewrite setattr_unbound. }
  split; [apply setattr_unbound|]. split; [done|].
  unfold with_TemporaryConfig, __init__, __enter__. unfold_M.
  cbn [GlobalConfig]. by rewrite Hrun.
Qed.

(** C2 (defect of the code, the same as for C1): with [GlobalConfig]
    unbound, a scope body that begins with the write of [y] to a setting,
    whatever follows it, stops at that write with [NameError]; the error
    the body was to raise afterwards is never reached, nothing was written
    and [__exit__] has nothing to restore: the [with] statement ends with
    the [NameError]. *)
Theorem scope_body_write_raises_NameError attr y rest :
  run (Write attr y :: rest) (World [] unbound)
  = (Raise name_error, World [] unbound)
  ∧ __exit__ (World [] unbound) = (Return (), World [] unbound)
  ∧ with_TemporaryConfig (run (Write attr y :: rest)) unbound
    = (Raise name_error, unbound).
Proof.
  unfold unbound.
  assert (run (Write attr y :: rest) (World [] None)
          = (Raise name_error, World [] None)) as Hrun.
  { cbn [run]. unfold mbind, M_bind. by rewrite setattr_unbound. }
  split; [done|]. split; [done|].
  unfold with_TemporaryConfig, __init__, __enter__. unfold_M.
  cbn [GlobalConfig]. by rewrite Hrun.
Qed.

End ScopeClaims.

(** * The registry accessors: what a write stores and what it rejects *)

Section ConfigClaims.
Import Config.

(** C8: writing a value a setting stores (for a property: not [None] and
    passing the accessor's test; for a plain attribute: any value) and then
    reading the setting returns exactly that value; the read is done on the
    state the write returned, nothing sits in between. *)
Theorem write_then_read attr v σ :
  storable attr v = true →
  ∃ σ', setattr attr v σ = (Return (), σ')
        ∧ getattr attr σ' = (Return v, σ')
        ∧ ∀ p, attr = name p →
               accessor p v σ = (Return VNone, σ')
               ∧ accessor p VNone σ' = (Return v, σ').
Proof.
  intros Hv. exists (<[slot attr := v]> σ). split; [by apply setattr_storable|].
  split; [apply getattr_Some; by rewrite lookup_insert_eq|].
  intros p ->. rewrite storable_name in Hv. rewrite slot_name. split.
  - by apply accessor_accepts.
  - rewrite accessor_None. apply getfield_Some. by rewrite lookup_insert_eq.
Qed.

Lemma write_then_read_witness :
  ∃ σ', setattr "image_quality" (VInt 7) Config.new = (Return (), σ')
        ∧ getattr "image_quality" σ' = (Return (VInt 7), σ')
        ∧ ∀ p, "image_quality" = name p →
               accessor p (VInt 7) Config.new = (Return VNone, σ')
               ∧ accessor p VNone σ' = (Return (VInt 7), σ').
Proof.
  apply (write_then_read "image_quality" (VInt 7) Config.new).
  vm_compute; reflexivity.
Defined.



(** C7, as stated, fails at the non-boolean input [None]: assigning [None]
    to [wait_for_animations] raises nothing (and the accessor returns the
    current value). *)
Lemma boolean_setting_None_not_rejected :
  is_True_or_False VNone = false
  ∧ (setattr "wait_for_animations" VNone Config.new).1 = Return ()
  ∧ (wait_for_animations VNone Config.new).1 = Return (VBool false).
Proof. vm_compute. done. Qed.

(** C7, amended: for each of the four boolean settings, writing a value that
    is neither a bool nor [None] raises [ValueError] and leaves the
    attributes alone; writing [True] or [False] succeeds and a read then
    returns exactly that bool. *)
Theorem boolean_setting_write p σ :
  p ∈ boolean_settings →
  (∀ b, ∃ σ', setattr (name p) (VBool b) σ = (Return (), σ')
              ∧ getattr (name p) σ' = (Return (VBool b), σ'))
  ∧ (∀ v, is_True_or_False v = false → v ≠ VNone →
          setattr (name p) v σ = (Raise (Exn ValueError "" []), σ)).
Proof.
  intros Hp.
  assert (p = P_wait_for_animations ∨ p = P_smooth_mouse_drag
          ∨ p = P_preprocess_special_chars ∨ p = P_save_needle_on_error) as Hcases.
  { unfold boolean_settings in Hp.
    repeat (apply elem_of_cons in Hp as [->|Hp]; [tauto|]).
    by apply elem_of_nil in Hp. }
  split.
  - intros b. exists (<[slot (name p) := VBool b]> σ).
    assert (storable (name p) (VBool b) = true) as Hs.
    { rewrite storable_name. by destruct Hcases as [->|[->|[->| ->]]]. }
    split; [by apply setattr_storable|].
    apply getattr_Some. by rewrite lookup_insert_eq.
  - intros v Hb Hn. unfold setattr. rewrite lookup_property_name. unfold_M.
    rewrite accessor_rejects.
    + by destruct Hcases as [->|[->|[->| ->]]].
    + by destruct v.
    + by destruct Hcases as [->|[->|[->| ->]]].
Qed.

Lemma boolean_setting_write_witness :
  (∀ b, ∃ σ', setattr (name P_smooth_mouse_drag) (VBool b) Config.new = (Return (), σ')
              ∧ getattr (name P_smooth_mouse_drag) σ' = (Return (VBool b), σ'))
  ∧ (∀ v, is_True_or_False v = false → v ≠ VNone →
          setattr (name P_smooth_mouse_drag) v Config.new
          = (Raise (Exn ValueError "" []), Config.new)).
Proof.
  apply (boolean_setting_write P_smooth_mouse_drag Config.new).
  apply (bool_decide_unpack _). vm_compute. exact I.
Defined.

(** C6, as stated, fails on the error kind: writing the unsupported name
    ["foo"] raises a [ValueError], the class the boolean settings raise,
    not the [UnsupportedBackendError] class. *)
Lemma display_control_backend_raises_ValueError :
  ∃ e, (setattr "display_control_backend" (VStr "foo") Config.new).1 = Raise e
       ∧ exn_class_of e = ValueError
       ∧ exn_class_of e ≠ UnsupportedBackendError
       ∧ ∃ e', (setattr "wait_for_animations" (VInt 1) Config.new).1 = Raise e'
               ∧ exn_class_of e' = exn_class_of e.
Proof.
  exists (Exn ValueError "Unsupported backend for GUI actions '%s'" [ArgValue (VStr "foo")]).
  split; [by vm_compute|]. split; [done|]. split; [done|].
  exists (Exn ValueError "" []). split; [by vm_compute | done].
Qed.

(** C6, amended: writing one of the five names to [display_control_backend]
    succeeds and a read then returns that name; writing any other string
    raises [ValueError] (message ["Unsupported backend for GUI actions
    '%s'"]) and leaves the stored value, indeed all attributes, unchanged. *)
Theorem display_control_backend_write (s : string) σ :
  (s ∈ ["autopy"; "xdotool"; "vncdotool"; "qemu"; "pyautogui"] →
     ∃ σ', setattr "display_control_backend" (VStr s) σ = (Return (), σ')
           ∧ getattr "display_control_backend" σ' = (Return (VStr s), σ'))
  ∧ (s ∉ ["autopy"; "xdotool"; "vncdotool"; "qemu"; "pyautogui"] →
     setattr "display_control_backend" (VStr s) σ
     = (Raise (Exn ValueError "Unsupported backend for GUI actions '%s'"
                 [ArgValue (VStr s)]), σ)).
Proof.
  change "display_control_backend" with (name P_display_control_backend). split.
  - intros Hs. exists (<[slot (name P_display_control_backend) := VStr s]> σ).
    assert (storable (name P_display_control_backend) (VStr s) = true) as Hst.
    { rewrite storable_name. unfold accepts. cbn. by apply bool_decide_eq_true. }
    split; [by apply setattr_storable|].
    apply getattr_Some. by rewrite lookup_insert_eq.
  - intros Hs. unfold setattr. rewrite lookup_property_name. unfold_M.
    rewrite accessor_rejects; [done..|]. cbn. by apply bool_decide_eq_false.
Qed.

Lemma display_control_backend_write_witness :
  (∃ σ', setattr "display_control_backend" (VStr "qemu") Config.new = (Return (), σ')
         ∧ getattr "display_control_backend" σ' = (Return (VStr "qemu"), σ'))
  ∧ setattr "display_control_backend" (VStr "x11") Config.new
    = (Raise (Exn ValueError "Unsupported backend for GUI actions '%s'"
                [ArgValue (VStr "x11")]), Config.new).
Proof.
  split.
  - apply (proj1 (display_control_backend_write "qemu" Config.new)).
    apply (bool_decide_unpack _). vm_compute. exact I.
  - apply (proj2 (display_control_backend_write "x11" Config.new)).
    apply (bool_decide_unpack _). vm_compute. exact I.
Defined.

End ConfigClaims.

(** * The local container: configure and synchronize *)

Section LocalClaims.
Import LocalConfig.

(** C3: [synchronize_backend(backend, "type")] returns exactly when the
    backend name ("cv" when omitted) is in
    [algorithms[categories["type"]]]; [params] plays no part.  It leaves
    the container as it is, so a second call gives the same result, and on
    a container built without configuring it succeeds for "cv". *)
Theorem synchronize_backend_membership_only backend reset s :
  ((synchronize_backend backend "type" reset s).1 = Return ()
   ↔ is_admissible s "type" (selected_backend backend))
  ∧ (synchronize_backend backend "type" reset s).2 = s
  ∧ synchronize_backend backend "type" reset
      (synchronize_backend backend "type" reset s).2
    = synchronize_backend backend "type" reset s
  ∧ LocalConfig.new false false = (Return (), unconfigured)
  ∧ params unconfigured = ∅
  ∧ synchronize_backend (Some "cv") "type" reset unconfigured
    = (Return (), unconfigured)
  ∧ synchronize_backend None "type" reset unconfigured
    = (Return (), unconfigured).
Proof.
  split; [|split; [|split; [|split; [|split; [|split]]]]].
  - rewrite synchronize_backend_Return. tauto.
  - apply synchronize_backend_state.
  - by rewrite synchronize_backend_state.
  - by vm_compute.
  - by vm_compute.
  - by destruct reset; vm_compute.
  - by destruct reset; vm_compute.
Qed.

(** C4, as stated, fails: on a container built without configuring,
    [synchronize_backend] succeeds although [params] has no entry for the
    category. *)
Lemma synchronize_succeeds_unconfigured :
  (synchronize_backend None "type" false unconfigured).1 = Return ()
  ∧ params unconfigured !! "type" = None.
Proof. by vm_compute. Qed.

(** C4, amended: a successful [synchronize_backend] implies that the
    category is "type" and that the backend name is a member of
    [algorithms[categories[category]]] (nothing about [params]); and after
    a successful [configure_backend], [params[category]] exists and its
    "backend" entry is such a member. *)
Theorem synchronize_success_means_admissible backend category reset s :
  ((synchronize_backend backend category reset s).1 = Return () →
   category = "type" ∧ is_admissible s category (selected_backend backend))
  ∧ (∀ s', configure_backend backend category reset s = (Return (), s') →
           ∃ selected b,
             params s' !! category = Some selected
             ∧ selected !! "backend" = Some b
             ∧ is_admissible s' category b).
Proof.
  split; [by intros ?%synchronize_backend_Return|].
  intros s'. rewrite configure_backend_unfold, admissible_unfold.
  destruct (bool_decide (category ≠ "type")); [done|].
  destruct (categories s !! category) as [t|] eqn:Et; [|done].
  destruct (algorithms s !! t) as [l|] eqn:El; [|done].
  destruct (bool_decide (_ ∈ l)) eqn:Hin; [|done].
  apply bool_decide_eq_true in Hin. intros [= <-]. cbn.
  eexists _, _. split; [apply lookup_insert_eq|].
  split; [apply lookup_insert_eq|]. by exists t, l.
Qed.

Lemma synchronize_success_means_admissible_witness :
  "type" = "type" ∧ is_admissible unconfigured "type" (selected_backend (Some "dc")).
Proof.
  apply (proj1 (synchronize_success_means_admissible (Some "dc") "type" false unconfigured)).
  vm_compute; reflexivity.
Defined.

(** C5, as stated, fails on the error kind: the failure for the category
    "dc" has the class [UnsupportedBackendError], the very class of the
    failure for an inadmissible backend name. *)
Lemma unsupported_category_same_class :
  ∃ e1 e2,
    (configure_backend (Some "cv") "dc" false unconfigured).1 = Raise e1
    ∧ (configure_backend (Some "xx") "type" false unconfigured).1 = Raise e2
    ∧ exn_class_of e1 = UnsupportedBackendError
    ∧ exn_class_of e1 = exn_class_of e2.
Proof.
  exists (Exn UnsupportedBackendError "Backend category '%s' is not supported"
            [ArgStr "dc"]),
         (Exn UnsupportedBackendError
            "Backend '%s' is not among the supported ones: %s"
            [ArgStr "xx"; ArgTuple ["cv"; "dc"]]).
  by vm_compute.
Qed.

(** C5, amended: for every category other than "type", [configure_backend]
    raises [UnsupportedBackendError] with the message ["Backend category
    '%s' is not supported"] and changes nothing.  The failure for an
    inadmissible backend name has the same class; only the message tells
    the two apart. *)
Theorem configure_backend_unsupported_category backend category reset s :
  category ≠ "type" →
  configure_backend backend category reset s
  = (Raise (Exn UnsupportedBackendError
              "Backend category '%s' is not supported" [ArgStr category]), s)
  ∧ ∀ backend' s0 supported,
      admissible "type" s0 = (Return supported, s0) →
      selected_backend backend' ∉ supported →
      ∃ e', configure_backend backend' "type" reset s0 = (Raise e', s0)
            ∧ exn_class_of e' = UnsupportedBackendError
            ∧ exn_fmt e' ≠ "Backend category '%s' is not supported".
Proof.
  intros Hc. split.
  - rewrite configure_backend_unfold. by rewrite bool_decide_eq_true_2.
  - intros backend' s0 supported Hadm Hnot.
    rewrite configure_backend_unfold.
    rewrite (bool_decide_eq_false_2 ("type" ≠ "type")) by (intros H; by apply H).
    rewrite Hadm.
    rewrite (bool_decide_eq_false_2 (selected_backend backend' ∈ supported)) by done.
    eexists. split; [done|]. split; [done|]. cbn. discriminate.
Qed.

Lemma configure_backend_unsupported_category_witness :
  configure_backend (Some "cv") "dc" false unconfigured
  = (Raise (Exn UnsupportedBackendError
              "Backend category '%s' is not supported" [ArgStr "dc"]), unconfigured)
  ∧ ∀ backend' s0 supported,
      admissible "type" s0 = (Return supported, s0) →
      selected_backend backend' ∉ supported →
      ∃ e', configure_backend backend' "type" false s0 = (Raise e', s0)
            ∧ exn_class_of e' = UnsupportedBackendError
            ∧ exn_fmt e' ≠ "Backend category '%s' is not supported".
Proof.
  apply (configure_backend_unsupported_category (Some "cv") "dc" false unconfigured).
  apply (bool_decide_unpack _). vm_compute. exact I.
Defined.

(** C10: whenever [configure_backend] raises, the container is exactly as
    before the call; it raises exactly when the category is not "type" or
    the backend name is not a member of
    [algorithms[categories[category]]]; and when it returns, only
    [params[category]] has changed, to [{"backend": backend}]. *)
Theorem configure_backend_atomic backend category reset s r s' :
  configure_backend backend category reset s = (r, s') →
  match r with
  | Raise _ =>
      s' = s
      ∧ (category ≠ "type"
         ∨ ¬ is_admissible s category (selected_backend backend))
  | Return _ =>
      category = "type"
      ∧ is_admissible s category (selected_backend backend)
      ∧ categories s' = categories s
      ∧ algorithms s' = algorithms s
      ∧ params s'
        = <[category := <["backend" := selected_backend backend]> ∅]> (params s)
  end.
Proof.
  rewrite configure_backend_unfold, admissible_unfold. unfold is_admissible.
  destruct (bool_decide (category ≠ "type")) eqn:Hc.
  { apply bool_decide_eq_true in Hc. intros [= <- <-]. split; [done | by left]. }
  apply bool_decide_eq_false in Hc. apply dec_stable in Hc.
  destruct (categories s !! category) as [t|] eqn:Et.
  2: { intros [= <- <-]. split; [done|]. right. by intros (? & ? & ? & _). }
  destruct (algorithms s !! t) as [l|] eqn:El.
  2: { intros [= <- <-]. split; [done|]. right.
       intros (t' & l' & Ht' & Hl' & _). congruence. }
  destruct (bool_decide (_ ∈ l)) eqn:Hin; intros [= <- <-].
  - apply bool_decide_eq_true in Hin. cbn. split; [done|].
    split; [by exists t, l | done].
  - apply bool_decide_eq_false in Hin. split; [done|]. right.
    intros (t' & l' & Ht' & Hl' & Hmem). congruence.
Qed.

Lemma configure_backend_atomic_witness :
  unconfigured = unconfigured
  ∧ ("type" ≠ "type" ∨ ¬ is_admissible unconfigured "type" (selected_backend (Some "xx"))).
Proof.
  apply (configure_backend_atomic (Some "xx") "type" false unconfigured
           (Raise (Exn UnsupportedBackendError
                     "Backend '%s' is not among the supported ones: %s"
                     [ArgStr "xx"; ArgTuple ["cv"; "dc"]]))
           unconfigured).
  vm_compute; reflexivity.
Defined.

End LocalClaims.

(** * More on the registry *)

Section ConfigMore.
Import Config.

Lemma init_unfold σ :
  Config.__init__ σ =
  (Return (),
   <["_hybrid_match_backend" := VStr "template"]>
   (<["_deep_learn_backend" := VStr "pytorch"]>
   (<["_text_ocr_backend" := VStr "pytesseract"]>
   (<["_text_detect_backend" := VStr "contours"]>
   (<["_feature_match_backend" := VStr "BruteForce-Hamming"]>
   (<["_feature_extract_backend" := VStr "ORB"]>
   (<["_feature_detect_backend" := VStr "ORB"]>
   (<["_template_match_backend" := VStr "ccoeff_normed"]>
   (<["_contour_threshold_backend" := VStr "adaptive"]>
   (<["_find_backend" := VStr "hybrid"]>
   (<["_display_control_backend" := VStr "pyautogui"]>
   (<["_image_quality" := VInt 3]>
   (<["_image_logging_step_width" := VInt 3]>
   (<["_image_logging_destination" := VStr "imglog"]>
   (<["_image_logging_level" := VInt 40]>
   (<["_save_needle_on_error" := VBool true]>
   (<["_preprocess_special_chars" := VBool true]>
   (<["screen_autoconnect" := VBool true]>
   (<["_smooth_mouse_drag" := VBool true]>
   (<["_wait_for_animations" := VBool false]>
   (<["_rescan_speed_on_find" := VFloat 0x3FC999999999999A]>
   (<["type_delay" := VFloat 0x3FB999999999999A]>
   (<["keys_delay" := VFloat 0x3FC999999999999A]>
   (<["drop_delay" := VFloat 0x3FE0000000000000]>
   (<["drag_delay" := VFloat 0x3FE0000000000000]>
   (<["_click_delay" := VFloat 0x3FB999999999999A]>
   (<["_toggle_delay" := VFloat 0x3FA999999999999A]> σ))))))))))))))))))))))))))).
Proof.
  unfold Config.__init__. unfold mbind, M_bind.
  repeat (rewrite setattr_storable by reflexivity;
          match goal with |- context [slot ?a] =>
            let k := eval vm_compute in (slot a) in change (slot a) with k end).
  reflexivity.
Qed.

Ltac decide_in_goal :=
  match goal with
  | |- context [bool_decide ?P] =>
      let b := eval vm_compute in (bool_decide P) in
      change (bool_decide P) with b
  end.

(** X1: [__init__] never raises and gives every property a value its
    accessor accepts, except the four [delay_*] properties, whose fields it
    does not touch: on a new instance reading one of them raises
    [AttributeError]. *)
Theorem init_leaves_four_delays_unset p σ :
  (Config.__init__ σ).1 = Return ()
  ∧ if bool_decide (p ∈ uninitialised)
    then (Config.__init__ σ).2 !! backing_field p = σ !! backing_field p
         ∧ (getattr (name p) Config.new).1
           = Raise (Exn AttributeError "'Config' object has no attribute '%s'"
                      [ArgStr (backing_field p)])
    else ∃ v, (Config.__init__ σ).2 !! backing_field p = Some v
              ∧ accepts p v = true.
Proof.
  rewrite init_unfold. split; [done|].
  destruct p; decide_in_goal; cbv iota; cbn [backing_field snd];
    first [ split; [by simplify_map_eq | by vm_compute]
          | eexists; split; [by simplify_map_eq | reflexivity] ].
Qed.

(** X2: writing one property, whether the write is stored or rejected,
    leaves what every other property reads. *)
Theorem write_leaves_other_settings p q v σ :
  p ≠ q →
  (getattr (name q) (setattr (name p) v σ).2).1 = (getattr (name q) σ).1.
Proof.
  intros Hne. rewrite !getattr_slot. unfold getfield.
  rewrite setattr_frame.
  - by destruct (σ !! slot (name q)).
  - rewrite !slot_name. by intros ?%backing_field_inj.
Qed.

Lemma write_leaves_other_settings_witness :
  (getattr (name P_image_quality)
     (setattr (name P_wait_for_animations) (VBool true) Config.new).2).1
  = (getattr (name P_image_quality) Config.new).1.
Proof.
  apply (write_leaves_other_settings P_wait_for_animations P_image_quality).
  apply (bool_decide_unpack _). vm_compute. exact I.
Defined.

(** X3: an assignment to a name without a leading double underscore that
    raises has changed nothing.  Only a property can make such an
    assignment raise: either the value is not [None] and fails
    the accessor's test ([ValueError]), or the value is [None] and the
    field behind the property is unset ([AttributeError]). *)
Theorem failed_write_changes_nothing attr v σ e :
  dunder attr = false →
  (setattr attr v σ).1 = Raise e →
  (setattr attr v σ).2 = σ
  ∧ ∃ p, attr = name p
         ∧ ((v ≠ VNone ∧ accepts p v = false ∧ e = rejection p v)
            ∨ (v = VNone ∧ σ !! backing_field p = None
               ∧ exn_class_of e = AttributeError)).
Proof.
  intros _.
  unfold setattr. destruct (lookup_property attr) as [p|] eqn:E; [|done].
  apply lookup_property_Some in E as <-. unfold_M.
  destruct (accessor_cases p v σ) as [[-> ->]|[[_ ->]|(Hn & Ha & ->)]]; cbn.
  - unfold getfield. destruct (σ !! backing_field p) eqn:Hf; cbn; [done|].
    intros [= <-]. split; [done|]. exists p. split; [done|]. by right.
  - done.
  - intros [= <-]. split; [done|]. exists p. split; [done|]. by left.
Qed.

Lemma failed_write_changes_nothing_witness :
  (setattr "display_control_backend" (VStr "x11") Config.new).2 = Config.new
  ∧ ∃ p, "display_control_backend" = name p
         ∧ ((VStr "x11" ≠ VNone ∧ accepts p (VStr "x11") = false
             ∧ Exn ValueError "Unsupported backend for GUI actions '%s'"
                 [ArgValue (VStr "x11")] = rejection p (VStr "x11"))
            ∨ (VStr "x11" = VNone ∧ Config.new !! backing_field p = None
               ∧ exn_class_of
                   (Exn ValueError "Unsupported backend for GUI actions '%s'"
                      [ArgValue (VStr "x11")]) = AttributeError)).
Proof.
  apply (failed_write_changes_nothing "display_control_backend" (VStr "x11")
           Config.new);
    vm_compute; reflexivity.
Defined.

Lemma registry_ok_after_writes ws : ∀ σ,
  forallb (λ w : string * pyvalue, public w.1) ws = true →
  registry_ok σ = true → registry_ok (after_writes ws σ) = true.
Proof.
  induction ws as [|[attr v] ws IH]; intros σ Hpub Hok; [done|].
  cbn in Hpub. apply andb_prop in Hpub as [Ha Hws].
  cbn [after_writes]. apply IH; [done|]. by apply registry_ok_setattr.
Qed.

(** X4: starting from a well-formed registry, after any sequence of
    assignments to settings (stored or rejected, the caller carrying on
    after an error), whatever a property reads is a value its accessor
    accepts: a boolean setting reads a bool, [display_control_backend]
    reads one of its five names, and nothing reads [None]. *)
Theorem validated_settings_stay_valid ws σ p v :
  registry_ok σ = true →
  forallb (λ w : string * pyvalue, public w.1) ws = true →
  (getattr (name p) (after_writes ws σ)).1 = Return v →
  accepts p v = true
  ∧ v ≠ VNone
  ∧ (p ∈ boolean_settings → ∃ b, v = VBool b)
  ∧ (p = P_display_control_backend →
     ∃ s, v = VStr s ∧ s ∈ ["autopy"; "xdotool"; "vncdotool"; "qemu"; "pyautogui"]).
Proof.
  intros Hok Hpub Hv%getattr_outcome. rewrite slot_name in Hv.
  pose proof (registry_ok_after_writes ws σ Hpub Hok) as Hok'.
  rewrite registry_ok_spec in Hok'. specialize (Hok' p v Hv).
  split; [done|]. split; [by apply accepts_not_None in Hok'|].
  unfold accepts in Hok'. apply andb_prop in Hok' as [_ Hp]. split.
  - intros Hb. unfold boolean_settings in Hb.
    repeat (apply elem_of_cons in Hb as [->|Hb];
            [destruct v; try discriminate Hp; by eexists|]).
    by apply elem_of_nil in Hb.
  - intros ->. cbn in Hp. destruct v as [| | | |s]; try discriminate Hp.
    exists s. split; [done|]. by apply bool_decide_eq_true in Hp.
Qed.

Lemma validated_settings_stay_valid_witness :
  accepts P_display_control_backend (VStr "qemu") = true
  ∧ VStr "qemu" ≠ VNone
  ∧ (P_display_control_backend ∈ boolean_settings → ∃ b, VStr "qemu" = VBool b)
  ∧ (P_display_control_backend = P_display_control_backend →
     ∃ s, VStr "qemu" = VStr s
          ∧ s ∈ ["autopy"; "xdotool"; "vncdotool"; "qemu"; "pyautogui"]).
Proof.
  apply (validated_settings_stay_valid
           [("wait_for_animations", VInt 3);
            ("display_control_backend", VStr "qemu");
            ("display_control_backend", VStr "x11");
            ("screen_autoconnect", VNone)]
           Config.new P_display_control_backend (VStr "qemu"));
    vm_compute; reflexivity.
Defined.

(** X5: the properties other than the four boolean ones and
    [display_control_backend] test nothing: they store any value that is
    not [None], of whatever type. *)
Theorem other_settings_store_anything p v σ :
  p ∉ boolean_settings → p ≠ P_display_control_backend → v ≠ VNone →
  setattr (name p) v σ = (Return (), <[backing_field p := v]> σ).
Proof.
  intros Hb Hd Hn. rewrite setattr_storable; rewrite ?slot_name; [done|].
  rewrite storable_name. unfold accepts.
  assert (is_None v = false) as -> by by destruct v.
  destruct p; try reflexivity; try done;
    exfalso; apply Hb; unfold boolean_settings; set_solver.
Qed.

Lemma other_settings_store_anything_witness :
  setattr (name P_find_backend) (VInt 5) Config.new
  = (Return (), <[backing_field P_find_backend := VInt 5]> Config.new).
Proof.
  apply (other_settings_store_anything P_find_backend (VInt 5) Config.new);
    apply (bool_decide_unpack _); vm_compute; exact I.
Defined.

Lemma setattr_keeps_key attr v σ k :
  is_Some (σ !! k) → is_Some ((setattr attr v σ).2 !! k).
Proof.
  intros Hk. destruct (decide (k = slot attr)) as [->|Hne].
  - unfold setattr, slot in *. destruct (lookup_property attr) as [p|]; unfold_M.
    + destruct (accessor_cases p v σ) as [[_ ->]|[[_ ->]|(_ & _ & ->)]]; cbn.
      * pose proof (getfield_state (backing_field p) σ) as Hs.
        destruct (getfield _ σ) as [[?|?] ?]; cbn in *; by subst.
      * rewrite lookup_insert_eq. by eexists.
      * done.
    + cbn. rewrite lookup_insert_eq. by eexists.
  - by rewrite setattr_frame.
Qed.

(** X6: no assignment ever removes a value: a setting that can be read
    can still be read after any sequence of assignments, to any names and
    of any values. *)
Theorem readable_settings_stay_readable ws : ∀ σ attr x,
  (getattr attr σ).1 = Return x →
  ∃ x', (getattr attr (after_writes ws σ)).1 = Return x'.
Proof.
  induction ws as [|[a v] ws IH]; intros σ attr x Hx; [by exists x|].
  cbn [after_writes].
  apply getattr_outcome in Hx.
  destruct (setattr_keeps_key a v σ (slot attr)) as [x1 Hx1]; [by eexists|].
  apply (IH _ attr x1). by rewrite (getattr_Some _ _ _ Hx1).
Qed.

Lemma readable_settings_stay_readable_witness :
  ∃ x', (getattr "image_quality"
           (after_writes [("image_quality", VStr "high"); ("_image_quality", VNone)]
              Config.new)).1 = Return x'.
Proof.
  apply (readable_settings_stay_readable _ Config.new "image_quality" (VInt 3)).
  vm_compute. reflexivity.
Defined.

End ConfigMore.

(** * More on the temporary configuration *)

Section ScopeMore.
Import Config TemporaryConfig.

Lemma restore_unbound item items o :
  restore (item :: items) (World o None) = (Raise name_error, World o None).
Proof. by destruct item. Qed.

(** X7: what the unbound name does to every method.  In the module as
    config.py leaves it, a read and a write through the proxy raise
    [NameError] whatever the name, the value and the snapshot, and change
    nothing; [__exit__] returns when the snapshot is empty and raises
    [NameError], keeping the snapshot, when it is not. *)
Theorem unbound_proxy_raises_NameError name value o item :
  __getattribute__ name (World o unbound) = (Raise name_error, World o unbound)
  ∧ __setattr__ name value (World o unbound) = (Raise name_error, World o unbound)
  ∧ __exit__ (World [] unbound) = (Return (), World [] unbound)
  ∧ __exit__ (World (item :: o) unbound)
    = (Raise name_error, World (item :: o) unbound).
Proof.
  unfold unbound. split; [by rewrite getattribute_unfold|].
  split; [apply setattr_unbound|]. split; [done|].
  rewrite exit_unfold. cbn [_original_values]. by rewrite restore_unbound.
Qed.

(** X8: with [GlobalConfig] bound to a [Config] instance, an assignment
    through the proxy to a name that has no value in the registry (and is
    not yet recorded) raises [AttributeError] before anything is recorded
    or written: a scope cannot give a value to a setting that has none,
    such as the four [delay_*] properties of a new [Config]. *)
Theorem proxy_write_needs_a_value attr v o σ :
  dunder attr = false →
  dict_mem attr o = false → σ !! slot attr = None →
  __setattr__ attr v (World o (bound σ))
  = (Raise (Exn AttributeError "'Config' object has no attribute '%s'"
              [ArgStr (slot attr)]), World o (bound σ)).
Proof.
  intros _ Hmem Hnone. unfold bound. by rewrite setattr_bound, Hmem, Hnone.
Qed.

Lemma proxy_write_needs_a_value_witness :
  __setattr__ "delay_before_drop" (VFloat 0x3FF4CCCCCCCCCCCD)
    (World [] (bound Config.new))
  = (Raise (Exn AttributeError "'Config' object has no attribute '%s'"
              [ArgStr (slot "delay_before_drop")]), World [] (bound Config.new)).
Proof.
  apply (proxy_write_needs_a_value "delay_before_drop"
           (VFloat 0x3FF4CCCCCCCCCCCD) [] Config.new);
    vm_compute; reflexivity.
Defined.

(** X9: with [GlobalConfig] bound, the snapshot is taken before the value
    is looked at.  Assigning to a property, for the first time in the
    scope, a value its accessor does not store records the current value
    all the same and leaves the registry as it is; the assignment raises
    the accessor's [ValueError], or returns normally when the value is
    [None]. *)
Theorem snapshot_precedes_validation p v x o σ :
  dict_mem (name p) o = false →
  σ !! backing_field p = Some x →
  accepts p v = false →
  __setattr__ (name p) v (World o (bound σ))
  = (if is_None v then Return () else Raise (rejection p v),
     World (o ++ [(name p, x)]) (bound σ)).
Proof.
  intros Hmem Hx Ha. unfold bound.
  rewrite setattr_bound, Hmem, slot_name, Hx.
  unfold setattr. rewrite lookup_property_name. unfold_M.
  destruct (accessor_cases p v σ) as [[-> ->]|[[Ha' _]|(Hn & _ & ->)]].
  - by rewrite (getfield_Some _ _ _ Hx).
  - congruence.
  - by destruct v.
Qed.

Lemma snapshot_precedes_validation_witness :
  __setattr__ (name P_smooth_mouse_drag) (VStr "yes") (World [] (bound Config.new))
  = (if is_None (VStr "yes") then Return ()
     else Raise (rejection P_smooth_mouse_drag (VStr "yes")),
     World ([] ++ [(name P_smooth_mouse_drag, VBool true)]) (bound Config.new)).
Proof.
  apply (snapshot_precedes_validation P_smooth_mouse_drag (VStr "yes")
           (VBool true) [] Config.new);
    vm_compute; reflexivity.
Defined.

Lemma restore_snapshot items : ∀ w,
  _original_values (restore items w).2 = _original_values w.
Proof.
  induction items as [|[n v] items IH]; intros [o [σ|]]; [done|done| |done].
  cbn [restore]. unfold mbind, M_bind. rewrite on_GlobalConfig_bound.
  destruct (setattr n v σ) as [[[]|e] σ']; cbn; [|done].
  by rewrite IH.
Qed.

Lemma restore_frame items k : ∀ o σ,
  k ∉ slot <$> items.*1 →
  ∃ σ', GlobalConfig (restore items (World o (Some σ))).2 = Some σ'
        ∧ σ' !! k = σ !! k.
Proof.
  induction items as [|[n v] items IH]; intros o σ Hk; [by exists σ|].
  cbn in Hk. apply not_elem_of_cons in Hk as [Hne Hk].
  cbn [restore]. unfold mbind, M_bind. rewrite on_GlobalConfig_bound.
  pose proof (setattr_frame n v σ k Hne) as Hf.
  destruct (setattr n v σ) as [[[]|e] σ1]; cbn in *.
  - destruct (IH o σ1 Hk) as (σ' & H1 & H2). exists σ'. split; [done|]. congruence.
  - by exists σ1.
Qed.

(** X10: with [GlobalConfig] bound, leaving a scope writes nothing but the
    slots of the names recorded in it: a setting the scope never assigned
    keeps the value it has at exit, also one that was changed directly on
    the registry while the scope was open. *)
Theorem exit_writes_only_recorded_slots o σ k :
  plain_snapshot o = true →
  k ∉ slot <$> o.*1 →
  ∃ σ', GlobalConfig (__exit__ (World o (bound σ))).2 = Some σ'
        ∧ σ' !! k = σ !! k.
Proof.
  intros _ Hk. unfold bound. rewrite exit_unfold. cbn [_original_values].
  destruct (restore_frame o k o σ Hk) as (σ' & H1 & H2).
  destruct (restore o (World o (Some σ))) as [[[]|e] w']; cbn in *; eauto.
Qed.

Lemma exit_writes_only_recorded_slots_witness :
  ∃ σ', GlobalConfig
          (__exit__ (World [("image_quality", VInt 3)]
                       (bound (<["_image_quality" := VInt 9]>
                                 (<["_find_backend" := VStr "text"]> Config.new))))).2
        = Some σ'
        ∧ σ' !! "_find_backend"
          = <["_image_quality" := VInt 9]>
              (<["_find_backend" := VStr "text"]> Config.new) !! "_find_backend".
Proof.
  apply exit_writes_only_recorded_slots.
  - vm_compute. reflexivity.
  - apply (bool_decide_unpack _). vm_compute. exact I.
Defined.

(** X11: the snapshot is cleared only when every restoring write went
    through.  After an exit that returned the snapshot is empty and a
    further exit does nothing; after an exit that raised the snapshot is
    still the one the scope had. *)
Theorem exit_clears_only_on_success w :
  plain_snapshot (_original_values w) = true →
  ((__exit__ w).1 = Return () →
   _original_values (__exit__ w).2 = []
   ∧ __exit__ (__exit__ w).2 = (Return (), (__exit__ w).2))
  ∧ (∀ e, (__exit__ w).1 = Raise e →
          _original_values (__exit__ w).2 = _original_values w).
Proof.
  intros _. rewrite (exit_unfold w).
  pose proof (restore_snapshot (_original_values w) w) as Hs.
  destruct (restore (_original_values w) w) as [[[]|e] [o' σ']]; cbn in *.
  - split; [|done]. intros _. split; [done|]. by rewrite exit_unfold.
  - split; [done|]. by intros _ _.
Qed.

Lemma exit_clears_only_on_success_witness :
  _original_values
    (__exit__ (World [("image_quality", VInt 3)]
                 (bound (<["_image_quality" := VInt 9]> Config.new)))).2 = []
  ∧ __exit__ (__exit__ (World [("image_quality", VInt 3)]
                          (bound (<["_image_quality" := VInt 9]> Config.new)))).2
    = (Return (),
       (__exit__ (World [("image_quality", VInt 3)]
                    (bound (<["_image_quality" := VInt 9]> Config.new)))).2).
Proof.
  refine (proj1 (exit_clears_only_on_success
                   (World [("image_quality", VInt 3)]
                      (bound (<["_image_quality" := VInt 9]> Config.new))) _) _);
    vm_compute; reflexivity.
Defined.

(** X12: with [GlobalConfig] bound to a well-formed registry, a scope
    whose body reads and assigns settings through the proxy, any number of
    them and any number of times, is invisible afterwards: the [with]
    statement ends as its body ended (returning, or raising the body's
    error) and the whole registry, every attribute of it, is what it was
    at entry. *)
Theorem scope_is_transparent body σ :
  registry_ok σ = true → forallb setting_stmt body = true →
  (with_TemporaryConfig (run body) (bound σ)).1 = (run body (World [] (bound σ))).1
  ∧ (with_TemporaryConfig (run body) (bound σ)).2 = bound σ.
Proof.
  intros Hok Hset%setting_stmt_public. unfold bound.
  by rewrite (scope_restores σ body Hok Hset).
Qed.

Lemma scope_is_transparent_witness :
  let body := [Write "wait_for_animations" (VBool true);
               Write "find_backend" (VStr "text");
               Read "find_backend";
               Write "wait_for_animations" (VBool false);
               Write "display_control_backend" (VStr "x11");
               Write "image_quality" (VInt 0)] in
  (with_TemporaryConfig (run body) (bound Config.new)).1
  = (run body (World [] (bound Config.new))).1
  ∧ (with_TemporaryConfig (run body) (bound Config.new)).2 = bound Config.new.
Proof.
  apply (scope_is_transparent _ Config.new); vm_compute; reflexivity.
Defined.

(** X22: with [GlobalConfig] bound to a well-formed registry, for every
    setting whose registry value is [x]: entering a scope, writing [y] and
    then [z] through the proxy, reading (which gives [z]) and leaving the
    scope leaves the registry value equal to [x].  At exit the snapshot
    holds the one entry [(attr, x)], recorded before the first write, so
    the exit performs one restoring write. *)
Theorem scope_two_writes_restored_once attr x y z σ :
  registry_ok σ = true → dunder attr = false →
  (getattr attr σ).1 = Return x →
  storable attr y = true → storable attr z = true →
  ∃ w1 w2 σ2,
    __setattr__ attr y (World [] (bound σ)) = (Return (), w1)
    ∧ __setattr__ attr z w1 = (Return (), w2)
    ∧ __getattribute__ attr w2 = (Return z, w2)
    ∧ w2 = World [(attr, x)] (bound σ2)
    ∧ __exit__ w2 = (Return (), World [] (bound (<[slot attr := x]> σ2)))
    ∧ <[slot attr := x]> σ2 = σ
    ∧ with_TemporaryConfig (run [Write attr y; Write attr z]) (bound σ)
      = (Return (), bound σ)
    ∧ getattr attr σ = (Return x, σ).
Proof.
  intros Hok _ Hx%getattr_outcome Hy Hz. unfold bound.
  pose proof (registry_ok_storable _ _ _ Hok Hx) as Hsx.
  pose proof (setattr_first attr x y σ Hx Hy) as H1.
  pose proof (setattr_again attr x z [] (<[slot attr := y]> σ) Hz) as H2.
  set (σ2 := <[slot attr := z]> (<[slot attr := y]> σ)) in *.
  assert (__exit__ (World [(attr, x)] (Some σ2))
          = (Return (), World [] (Some (<[slot attr := x]> σ2)))) as H3.
  { rewrite exit_unfold. cbn [_original_values restore].
    unfold mbind, M_bind. rewrite on_GlobalConfig_bound.
    by rewrite setattr_storable. }
  assert (<[slot attr := x]> σ2 = σ) as Hback.
  { unfold σ2. rewrite !insert_insert_eq. by apply insert_id. }
  eexists _, _, σ2. split; [exact H1|]. split; [exact H2|].
  split; [|split; [done|split; [done|split; [done|split]]]].
  - rewrite getattribute_unfold. cbn [GlobalConfig].
    rewrite (getattr_Some _ _ z); [done|]. unfold σ2. by rewrite lookup_insert_eq.
  - unfold with_TemporaryConfig, __init__, __enter__. cbn [run]. unfold_M.
    cbn [GlobalConfig]. rewrite H1, H2, H3, Hback. done.
  - by apply getattr_Some.
Qed.

Lemma scope_two_writes_restored_once_witness :
  ∃ w1 w2 σ2,
    __setattr__ "toggle_delay" (VFloat 0x3FF4CCCCCCCCCCCD)
      (World [] (bound Config.new)) = (Return (), w1)
    ∧ __setattr__ "toggle_delay" (VFloat 0x3FE0000000000000) w1 = (Return (), w2)
    ∧ __getattribute__ "toggle_delay" w2 = (Return (VFloat 0x3FE0000000000000), w2)
    ∧ w2 = World [("toggle_delay", VFloat 0x3FA999999999999A)] (bound σ2)
    ∧ __exit__ w2
      = (Return (),
         World [] (bound (<[slot "toggle_delay" := VFloat 0x3FA999999999999A]> σ2)))
    ∧ <[slot "toggle_delay" := VFloat 0x3FA999999999999A]> σ2 = Config.new
    ∧ with_TemporaryConfig
        (run [Write "toggle_delay" (VFloat 0x3FF4CCCCCCCCCCCD);
              Write "toggle_delay" (VFloat 0x3FE0000000000000)]) (bound Config.new)
      = (Return (), bound Config.new)
    ∧ getattr "toggle_delay" Config.new
      = (Return (VFloat 0x3FA999999999999A), Config.new).
Proof.
  apply (scope_two_writes_restored_once "toggle_delay"
           (VFloat 0x3FA999999999999A) (VFloat 0x3FF4CCCCCCCCCCCD)
           (VFloat 0x3FE0000000000000) Config.new);
    vm_compute; reflexivity.
Defined.

(** X13: nesting, with [GlobalConfig] bound to a well-formed registry.  An
    outer scope assigns [y] to a setting whose value was [x] and then runs
    an inner scope, with any body of proxied statements on settings.  When
    the inner scope has ended the setting reads [y], the value the outer
    scope set and not [x]; if the inner body raised, the error goes on
    through the outer scope.  After the outer scope the registry is the
    one it was entered on. *)
Theorem nested_scope_restores_outer_value attr x y inner σ :
  registry_ok σ = true → public attr = true → dunder attr = false →
  (getattr attr σ).1 = Return x → storable attr y = true →
  forallb setting_stmt inner = true →
  with_TemporaryConfig
    (__setattr__ attr y ;;
     on_module (with_TemporaryConfig (run inner)) ;;
     __getattribute__ attr) (bound σ)
  = (match (run inner (World [] (bound (<[slot attr := y]> σ)))).1 with
     | Return _ => Return y
     | Raise e => Raise e
     end, bound σ).
Proof.
  intros Hok Hpub _ Hx%getattr_outcome Hy Hinner%setting_stmt_public.
  unfold bound.
  pose proof (registry_ok_storable _ _ _ Hok Hx) as Hsx.
  assert (registry_ok (<[slot attr := y]> σ) = true) as Hok1.
  { pose proof (registry_ok_setattr attr y σ Hpub Hok) as H.
    by rewrite setattr_storable in H. }
  assert (<[slot attr := x]> (<[slot attr := y]> σ) = σ) as Hback.
  { rewrite insert_insert_eq. by apply insert_id. }
  assert (__exit__ (World [(attr, x)] (Some (<[slot attr := y]> σ)))
          = (Return (), World [] (Some σ))) as Hexit.
  { rewrite exit_unfold. cbn [_original_values restore].
    unfold mbind, M_bind. rewrite on_GlobalConfig_bound.
    rewrite setattr_storable by done. cbn. by rewrite Hback. }
  pose proof (scope_restores _ inner Hok1 Hinner) as Hin.
  set (inner_scope := with_TemporaryConfig (run inner)) in *.
  unfold with_TemporaryConfig, __init__, __enter__.
  unfold mbind, M_bind, mret, M_ret, modify. cbn [GlobalConfig].
  rewrite (setattr_first attr x y σ Hx Hy).
  unfold on_module. cbn [GlobalConfig _original_values]. rewrite Hin.
  clear Hin inner_scope.
  destruct (run inner (World [] (Some (<[slot attr := y]> σ)))) as [[[]|e] w'];
    cbn [fst].
  - rewrite getattribute_unfold. cbn [GlobalConfig].
    rewrite (getattr_Some attr _ y) by by rewrite lookup_insert_eq.
    cbn [fst]. by rewrite Hexit.
  - by rewrite Hexit.
Qed.

Lemma nested_scope_restores_outer_value_witness :
  with_TemporaryConfig
    (__setattr__ "image_quality" (VInt 9) ;;
     on_module
       (with_TemporaryConfig
          (run [Write "image_quality" (VInt 0); Write "find_backend" (VStr "text")])) ;;
     __getattribute__ "image_quality") (bound Config.new)
  = (match (run [Write "image_quality" (VInt 0); Write "find_backend" (VStr "text")]
              (World [] (bound (<[slot "image_quality" := VInt 9]> Config.new)))).1 with
     | Return _ => Return (VInt 9)
     | Raise e => Raise e
     end, bound Config.new).
Proof.
  apply (nested_scope_restores_outer_value "image_quality" (VInt 3) (VInt 9)
           [Write "image_quality" (VInt 0); Write "find_backend" (VStr "text")]
           Config.new);
    vm_compute; reflexivity.
Defined.

(** X21: with [GlobalConfig] bound, an assignment through the proxy does
    to the registry exactly what the same assignment made directly on the
    instance does, with the same outcome (same value stored, same error
    raised), provided the name is already recorded in the scope or has a
    value in the registry. *)
Theorem proxy_write_is_registry_write attr v o σ :
  dunder attr = false →
  dict_mem attr o || bool_decide (is_Some (σ !! slot attr)) = true →
  (__setattr__ attr v (World o (bound σ))).1 = (setattr attr v σ).1
  ∧ GlobalConfig (__setattr__ attr v (World o (bound σ))).2
    = bound (setattr attr v σ).2.
Proof.
  intros _ H. unfold bound. rewrite setattr_bound.
  destruct (dict_mem attr o) eqn:Hmem; cbn in *; [done|].
  apply bool_decide_eq_true in H as [x Hx]. by rewrite Hx.
Qed.

Lemma proxy_write_is_registry_write_witness :
  (__setattr__ "display_control_backend" (VStr "x11")
     (World [] (bound Config.new))).1
  = (setattr "display_control_backend" (VStr "x11") Config.new).1
  ∧ GlobalConfig
      (__setattr__ "display_control_backend" (VStr "x11")
         (World [] (bound Config.new))).2
    = bound (setattr "display_control_backend" (VStr "x11") Config.new).2.
Proof.
  apply (proxy_write_is_registry_write "display_control_backend" (VStr "x11")
           [] Config.new);
    vm_compute; reflexivity.
Defined.

Lemma backing_field_not_property p : lookup_property (backing_field p) = None.
Proof. by destruct p. Qed.

Lemma backing_field_not_name p : backing_field p ≠ name p.
Proof. by destruct p. Qed.

(** X14: restoration is by attribute name ([GlobalConfig] bound).  When a
    scope assigns a property and then, under its underscore name, the
    field behind it, the field is recorded a second time with the value
    the first assignment stored, and restored last: after the scope the
    setting holds the first value [a] written in the scope, not its value
    [x] at entry.  (The second assignment is a plain store: [b] is not
    tested.) *)
Theorem underscore_write_defeats_restoration p x a b σ :
  σ !! backing_field p = Some x →
  accepts p x = true → accepts p a = true →
  with_TemporaryConfig
    (run [Write (name p) a; Write (backing_field p) b]) (bound σ)
  = (Return (), bound (<[backing_field p := a]> σ)).
Proof.
  intros Hx Hax Ha. unfold bound.
  assert (slot (backing_field p) = backing_field p) as Hslot.
  { unfold slot. by rewrite backing_field_not_property. }
  assert (∀ v τ, setattr (backing_field p) v τ
                 = (Return (), <[backing_field p := v]> τ)) as Hplain.
  { intros v τ. rewrite setattr_storable; [by rewrite Hslot|].
    unfold storable. by rewrite backing_field_not_property. }
  assert (∀ v τ, accepts p v = true →
                 setattr (name p) v τ = (Return (), <[backing_field p := v]> τ))
    as Hprop.
  { intros v τ Hv. rewrite setattr_storable; [by rewrite slot_name|].
    by rewrite storable_name. }
  assert (dict_mem (backing_field p) [(name p, x)] = false) as Hmem.
  { unfold dict_mem. apply bool_decide_eq_false. cbn.
    intros [?|?%elem_of_nil]%elem_of_cons; [|done].
    by apply (backing_field_not_name p). }
  unfold with_TemporaryConfig, __init__, __enter__. cbn [run].
  unfold mbind, M_bind, mret, M_ret, modify. cbn [GlobalConfig].
  rewrite (setattr_first (name p) x a σ);
    [|by rewrite slot_name|by rewrite storable_name].
  rewrite slot_name.
  rewrite setattr_bound, Hmem, Hslot, lookup_insert_eq, Hplain. cbn [fst snd].
  rewrite exit_unfold. cbn [_original_values restore app].
  unfold mbind, M_bind, mret, M_ret.
  rewrite on_GlobalConfig_bound, Hprop by done. cbn [fst snd].
  rewrite on_GlobalConfig_bound, Hplain. cbn [fst snd GlobalConfig].
  by rewrite !insert_insert_eq.
Qed.

Lemma underscore_write_defeats_restoration_witness :
  with_TemporaryConfig
    (run [Write (name P_image_quality) (VInt 9);
          Write (backing_field P_image_quality) VNone]) (bound Config.new)
  = (Return (), bound (<[backing_field P_image_quality := VInt 9]> Config.new)).
Proof.
  apply (underscore_write_defeats_restoration P_image_quality (VInt 3)
           (VInt 9) VNone Config.new);
    vm_compute; reflexivity.
Defined.

End ScopeMore.

(** * More on the local container *)

Section LocalMore.
Import LocalConfig.

(** X15: the constructor never raises, whatever its two flags and whatever
    the object held before: it yields the one category "type" with the
    backends "cv" and "dc", and [params] is [{"type": {"backend": "cv"}}]
    when [configure] is set and empty otherwise.  On the object built,
    [synchronize] returns and changes nothing, and [configure] gives the
    object the constructor builds with [configure=True]. *)
Theorem constructor_never_raises configure synchronize reset s0 :
  LocalConfig.__init__ configure synchronize s0
  = (Return (),
     Self {["type" := "backend_types"]} {["backend_types" := ["cv"; "dc"]]}
          (if configure then {["type" := {["backend" := "cv"]}]} else ∅))
  ∧ LocalConfig.synchronize reset (LocalConfig.new configure synchronize).2
    = (Return (), (LocalConfig.new configure synchronize).2)
  ∧ LocalConfig.configure reset (LocalConfig.new configure synchronize).2
    = (Return (), (LocalConfig.new true synchronize).2).
Proof.
  split; [|split].
  - by destruct configure, synchronize; vm_compute.
  - by destruct configure, synchronize, reset; vm_compute.
  - by destruct configure, synchronize, reset; vm_compute.
Qed.

Lemma configure_backend_Return backend category reset s :
  (configure_backend backend category reset s).1 = Return () ↔
  category = "type" ∧ is_admissible s category (selected_backend backend).
Proof.
  destruct (configure_backend backend category reset s) as [r s'] eqn:E.
  pose proof (configure_backend_unfold backend category reset s) as Hu.
  rewrite E in Hu. rewrite admissible_unfold in Hu. unfold is_admissible. cbn.
  destruct (bool_decide (category ≠ "type")) eqn:Hc.
  { apply bool_decide_eq_true in Hc. injection Hu as -> _.
    split; [done | by intros [? _]]. }
  apply bool_decide_eq_false in Hc. apply dec_stable in Hc.
  destruct (categories s !! category) as [t|] eqn:Et.
  2: { injection Hu as -> _. split; [done | by intros [_ (? & ? & ? & _)]]. }
  destruct (algorithms s !! t) as [l|] eqn:El.
  2: { injection Hu as -> _. split; [done|].
       intros [_ (t' & l' & Ht' & Hl' & _)]. congruence. }
  destruct (bool_decide (_ ∈ l)) eqn:Hin; injection Hu as -> _.
  - apply bool_decide_eq_true in Hin. split; [|done].
    intros _. split; [done|]. by exists t, l.
  - apply bool_decide_eq_false in Hin. split; [done|].
    intros [_ (t' & l' & Ht' & Hl' & Hmem)]. congruence.
Qed.

Lemma configure_backend_keeps_admissible backend category reset s c b :
  is_admissible (configure_backend backend category reset s).2 c b
  ↔ is_admissible s c b.
Proof.
  rewrite configure_backend_unfold, admissible_unfold.
  destruct (bool_decide (category ≠ "type")); [done|].
  destruct (categories s !! category) as [t|]; [|done].
  destruct (algorithms s !! t) as [l|]; [|done].
  by destruct (bool_decide (_ ∈ l)).
Qed.

(** X16: after a [configure_backend] that returned, [synchronize_backend]
    for the same backend and category returns too and changes nothing,
    whatever the [reset] flags. *)
Theorem configure_then_synchronize backend category reset reset' s :
  (configure_backend backend category reset s).1 = Return () →
  synchronize_backend backend category reset'
    (configure_backend backend category reset s).2
  = (Return (), (configure_backend backend category reset s).2).
Proof.
  intros [Hc Hadm]%configure_backend_Return.
  set (s' := (configure_backend backend category reset s).2).
  assert ((synchronize_backend backend category reset' s').1 = Return ()) as Hr.
  { apply synchronize_backend_Return. split; [done|].
    by apply configure_backend_keeps_admissible. }
  pose proof (synchronize_backend_state backend category reset' s') as Hs.
  destruct (synchronize_backend backend category reset' s') as [r s2].
  cbn in *. by subst.
Qed.

Lemma configure_then_synchronize_witness :
  synchronize_backend (Some "dc") "type" true
    (configure_backend (Some "dc") "type" false unconfigured).2
  = (Return (), (configure_backend (Some "dc") "type" false unconfigured).2).
Proof.
  apply (configure_then_synchronize (Some "dc") "type" false true unconfigured).
  vm_compute. reflexivity.
Defined.

(** X17: [configure_backend] and [synchronize_backend] accept exactly the
    same backend and category on the same container.  When they fail they
    raise the same exception for an unsupported category and for a missing
    dictionary key, and differ for a backend that is not admissible:
    [UnsupportedBackendError] from configure, [UninitializedBackendError]
    from synchronize. *)
Theorem configure_and_synchronize_accept_alike backend category reset reset' s :
  ((configure_backend backend category reset s).1 = Return ()
   ↔ (synchronize_backend backend category reset' s).1 = Return ())
  ∧ ∀ e1 e2,
      (configure_backend backend category reset s).1 = Raise e1 →
      (synchronize_backend backend category reset' s).1 = Raise e2 →
      (e1 = e2
       ∧ (category ≠ "type" ∧ exn_class_of e1 = UnsupportedBackendError
          ∨ category = "type" ∧ exn_class_of e1 = KeyError))
      ∨ (category = "type"
         ∧ exn_class_of e1 = UnsupportedBackendError
         ∧ exn_class_of e2 = UninitializedBackendError).
Proof.
  split.
  { by rewrite configure_backend_Return, synchronize_backend_Return. }
  intros e1 e2.
  rewrite configure_backend_unfold, synchronize_backend_unfold, admissible_unfold.
  destruct (bool_decide (category ≠ "type")) eqn:Hc.
  { apply bool_decide_eq_true in Hc. cbn. intros [= <-] [= <-].
    left. split; [done|]. by left. }
  apply bool_decide_eq_false in Hc. apply dec_stable in Hc.
  destruct (categories s !! category) as [t|].
  2: { cbn. intros [= <-] [= <-]. left. split; [done|]. by right. }
  destruct (algorithms s !! t) as [l|].
  2: { cbn. intros [= <-] [= <-]. left. split; [done|]. by right. }
  destruct (bool_decide (_ ∈ l)); cbn; [done|].
  intros [= <-] [= <-]. by right.
Qed.

Lemma configure_and_synchronize_accept_alike_witness :
  (Exn UnsupportedBackendError "Backend '%s' is not among the supported ones: %s"
     [ArgStr "xx"; ArgTuple ["cv"; "dc"]]
   = Exn UninitializedBackendError "Backend '%s' has not been configured yet"
       [ArgStr "xx"]
   ∧ ("type" ≠ "type"
      ∧ exn_class_of
          (Exn UnsupportedBackendError
             "Backend '%s' is not among the supported ones: %s"
             [ArgStr "xx"; ArgTuple ["cv"; "dc"]]) = UnsupportedBackendError
      ∨ "type" = "type"
        ∧ exn_class_of
            (Exn UnsupportedBackendError
               "Backend '%s' is not among the supported ones: %s"
               [ArgStr "xx"; ArgTuple ["cv"; "dc"]]) = KeyError))
  ∨ ("type" = "type"
     ∧ exn_class_of
         (Exn UnsupportedBackendError
            "Backend '%s' is not among the supported ones: %s"
            [ArgStr "xx"; ArgTuple ["cv"; "dc"]]) = UnsupportedBackendError
     ∧ exn_class_of
         (Exn UninitializedBackendError "Backend '%s' has not been configured yet"
            [ArgStr "xx"]) = UninitializedBackendError).
Proof.
  apply (proj2 (configure_and_synchronize_accept_alike
                  (Some "xx") "type" false false unconfigured));
    vm_compute; reflexivity.
Defined.

(** X18: configuring is destructive and the last call wins.  After a
    [configure_backend] that returned, [params[category]] is exactly
    [{"backend": backend}], whatever it held before; and a second
    admissible configuration of the category gives the container that this
    second call alone gives. *)
Theorem configure_overwrites b1 b2 category r1 r2 s :
  (configure_backend b1 category r1 s).1 = Return () →
  (configure_backend b2 category r2 s).1 = Return () →
  params (configure_backend b1 category r1 s).2 !! category
  = Some (<["backend" := selected_backend b1]> ∅)
  ∧ configure_backend b2 category r2 (configure_backend b1 category r1 s).2
    = configure_backend b2 category r2 s.
Proof.
  intros H1 H2. rewrite !configure_backend_unfold in *.
  rewrite !admissible_unfold in *.
  destruct (bool_decide (category ≠ "type")); [done|].
  destruct (categories s !! category) as [t|] eqn:Et; [|done].
  destruct (algorithms s !! t) as [l|] eqn:El; [|done].
  destruct (bool_decide (selected_backend b1 ∈ l)); [|done].
  destruct (bool_decide (selected_backend b2 ∈ l)) eqn:Hb2; [|done].
  cbn. rewrite Et, El, Hb2. split; [apply lookup_insert_eq|].
  by rewrite insert_insert_eq.
Qed.

Lemma configure_overwrites_witness :
  params (configure_backend (Some "dc") "type" false unconfigured).2 !! "type"
  = Some (<["backend" := selected_backend (Some "dc")]> ∅)
  ∧ configure_backend None "type" true
      (configure_backend (Some "dc") "type" false unconfigured).2
    = configure_backend None "type" true unconfigured.
Proof.
  apply (configure_overwrites (Some "dc") None "type" false true unconfigured);
    vm_compute; reflexivity.
Defined.

(** X19: the [reset] flag changes nothing: both entry points behave the
    same for either value, and [configure] and [synchronize] are the calls
    for the default backend and the category "type". *)
Theorem reset_has_no_effect backend category reset reset' s :
  configure_backend backend category reset s
  = configure_backend backend category reset' s
  ∧ synchronize_backend backend category reset s
    = synchronize_backend backend category reset' s
  ∧ LocalConfig.configure reset s = configure_backend None "type" reset' s
  ∧ LocalConfig.synchronize reset s = synchronize_backend None "type" reset' s.
Proof.
  unfold LocalConfig.configure, LocalConfig.synchronize.
  by rewrite !configure_backend_unfold, !synchronize_backend_unfold.
Qed.

(** X20: when [categories] has no entry for "type", or [algorithms] has no
    entry for the algorithm type it names, both entry points raise
    [KeyError] for the missing key and leave the container as it is. *)
Theorem missing_key_raises_KeyError backend reset s key :
  (categories s !! "type" = None ∧ key = "type")
  ∨ (categories s !! "type" = Some key ∧ algorithms s !! key = None) →
  configure_backend backend "type" reset s
  = (Raise (Exn KeyError "%r" [ArgStr key]), s)
  ∧ synchronize_backend backend "type" reset s
    = (Raise (Exn KeyError "%r" [ArgStr key]), s).
Proof.
  intros H.
  rewrite configure_backend_unfold, synchronize_backend_unfold, admissible_unfold.
  rewrite (bool_decide_eq_false_2 ("type" ≠ "type")) by (intros E; by apply E).
  destruct H as [[-> ->]|[-> ->]]; done.
Qed.

Lemma missing_key_raises_KeyError_witness :
  configure_backend (Some "cv") "type" false (Self ∅ ∅ ∅)
  = (Raise (Exn KeyError "%r" [ArgStr "type"]), Self ∅ ∅ ∅)
  ∧ synchronize_backend (Some "cv") "type" false (Self ∅ ∅ ∅)
    = (Raise (Exn KeyError "%r" [ArgStr "type"]), Self ∅ ∅ ∅).
Proof.
  apply (missing_key_raises_KeyError (Some "cv") false (Self ∅ ∅ ∅) "type").
  left. split; vm_compute; reflexivity.
Defined.

End LocalMore.
